(** * Agama web client: the network client (web/src/client/network/index.js)

    A shallow embedding of [NetworkClient]: the wire-to-domain translation of
    devices, routes and connections, the connection classifier, and the
    sequencing of the mutating operations against the HTTP client.

    JavaScript objects are finite maps from property names to values, so the
    spread [{ ...route, destination }] is a map insertion.  An asynchronous
    method is a computation over the list of requests already sent and the
    console, and either returns or throws. *)

From Stdlib Require Import ZArith NArith String Ascii List Bool Lia.
From Stdlib Require Import Decimal DecimalString DecimalN DecimalZ.
From stdpp Require Import base option list gmap strings fin_maps.

Local Open Scope string_scope.
Local Open Scope Z_scope.
Local Set Warnings "-register-all".

(** ** JavaScript values *)

(** The values the client handles are the ones JSON produces, plus
    [undefined].  Numbers are the integers and [NaN]. *)
Inductive value : Type :=
| VUndefined
| VNull
| VBool (b : bool)
| VNum (n : Z)
| VNaN
| VStr (s : string)
| VArr (l : list value)
| VObj (m : gmap string value).

(** What a [throw] or a rejected promise carries. *)
Inductive exn : Type :=
| TypeError
| SyntaxError
| MalformedInput (what : string)
| Rejected (reason : string).

Inductive result (A : Type) : Type :=
| Ok (a : A)
| Throw (e : exn).
Arguments Ok {A} a.
Arguments Throw {A} e.

#[global] Instance result_ret : MRet result := fun A a => Ok a.
#[global] Instance result_bind : MBind result := fun A B f r =>
  match r with
  | Ok a => f a
  | Throw e => Throw e
  end.
#[global] Instance result_fmap : FMap result := fun A B f r =>
  match r with
  | Ok a => Ok (f a)
  | Throw e => Throw e
  end.

(** [if (v)], [v || d] and [!v]. *)
Definition truthy (v : value) : bool :=
  match v with
  | VUndefined | VNull | VNaN => false
  | VBool b => b
  | VNum n => negb (n =? 0)
  | VStr s => negb (String.eqb s "")
  | VArr _ | VObj _ => true
  end.

Definition orElse (v d : value) : value := if truthy v then v else d.

(** ** Strings *)

Module Str.

(** [s.split(sep)] for a one-character separator: never empty. *)
Fixpoint split (sep : ascii) (s : string) : list string :=
match s with
| EmptyString => [EmptyString]
| String c rest =>
    if Ascii.eqb c sep then EmptyString :: split sep rest
    else match split sep rest with
         | h :: t => String c h :: t
         | [] => [String c EmptyString]
         end
end.

Fixpoint contains (c : ascii) (s : string) : bool :=
match s with
| EmptyString => false
| String a rest => Ascii.eqb a c || contains c rest
end.

Definition ofNat (n : nat) : string := NilZero.string_of_uint (Nat.to_uint n).
Definition ofN (n : N) : string := NilZero.string_of_uint (N.to_uint n).
Definition ofZ (n : Z) : string := NilZero.string_of_int (Z.to_int n).

(** A string of decimal digits as a number. *)
Definition toN (s : string) : option N := N.of_uint <$> NilZero.uint_of_string s.

Definition isSpace (c : ascii) : bool :=
let n := nat_of_ascii c in
((9 <=? n) && (n <=? 13))%nat || (n =? 32)%nat.

Fixpoint trimStart (s : string) : string :=
match s with
| EmptyString => EmptyString
| String c rest => if isSpace c then trimStart rest else s
end.

Fixpoint rev_string (s acc : string) : string :=
match s with
| EmptyString => acc
| String c rest => rev_string rest (String c acc)
end.

(** [s.trim()] on ASCII text. *)
Definition trim (s : string) : string :=
rev_string (trimStart (rev_string (trimStart s) "")) "".

Fixpoint chars (s : string) : list string :=
match s with
| EmptyString => []
| String c rest => String c EmptyString :: chars rest
end.

Fixpoint join (sep : string) (l : list string) : string :=
match l with
| [] => ""
| [x] => x
| x :: rest => x ++ sep ++ join sep rest
end.

End Str.

(** ** Objects *)

(** The string a template literal or a string concatenation makes of a value.
    An array prints its elements separated by commas, [null] and [undefined]
    elements as nothing.  An integer is printed with all its digits, as
    JavaScript does below 1e21 (from there on it writes an exponent). *)
Fixpoint toString (v : value) : string :=
  match v with
  | VUndefined => "undefined"
  | VNull => "null"
  | VBool true => "true"
  | VBool false => "false"
  | VNum n => Str.ofZ n
  | VNaN => "NaN"
  | VStr s => s
  | VArr l =>
      Str.join ","
        ((fix elems (l : list value) : list string :=
            match l with
            | [] => []
            | VUndefined :: rest => "" :: elems rest
            | VNull :: rest => "" :: elems rest
            | x :: rest => toString x :: elems rest
            end) l)
  | VObj _ => "[object Object]"
  end.

(** Index-keyed properties of an array or of the characters of a string. *)
Fixpoint indexed (i : nat) (l : list value) : gmap string value :=
  match l with
  | [] => ∅
  | x :: rest => <[Str.ofNat i := x]> (indexed (S i) rest)
  end.

(** The own enumerable properties, as [{ ...v }] copies them. *)
Definition ownProps (v : value) : gmap string value :=
  match v with
  | VObj m => m
  | VArr l => indexed 0 l
  | VStr s => indexed 0 (VStr <$> Str.chars s)
  | _ => ∅
  end.

(** [v.k] for a property name [k] that no prototype defines (the client reads
    only such names: [ipConfig], [destination], [wireless], ...).  Reading a
    property of [null] or [undefined] throws. *)
Definition getProp (v : value) (k : string) : result value :=
  match v with
  | VUndefined | VNull => Throw TypeError
  | VObj m => Ok (default VUndefined (m !! k))
  | _ => Ok VUndefined
  end.

(** [v?.k] *)
Definition getPropOpt (v : value) (k : string) : value :=
  match v with
  | VObj m => default VUndefined (m !! k)
  | _ => VUndefined
  end.

(** The receiver of [.map(...)] has to be an array. *)
Definition asArray (v : value) : result (list value) :=
  match v with
  | VArr l => Ok l
  | _ => Throw TypeError
  end.

(** The receiver of [.split(...)] and [.trim()] has to be a string. *)
Definition asString (v : value) : result string :=
  match v with
  | VStr s => Ok s
  | _ => Throw TypeError
  end.

(** [const [a, b] = parts] *)
Definition firstTwo (parts : list string) : value * value :=
  match parts with
  | [] => (VUndefined, VUndefined)
  | [a] => (VStr a, VUndefined)
  | a :: b :: _ => (VStr a, VStr b)
  end.

(** An object literal with the given properties, later ones winning. *)
Definition object (props : list (string * value)) : value :=
  VObj (foldl (fun m kv => <[kv.1 := kv.2]> m) ∅ props).

(** ** The imported collaborators *)

(** [import { formatIp, ipPrefixFor } from "./utils"] *)
Class Utils := {
  formatIp : value -> result value;
  ipPrefixFor : value -> result value
}.

(** [import { createConnection, createAccessPoint } from "./model"] *)
Class Model := {
  createConnection : value -> result value;
  createAccessPoint : value -> result value
}.

(** [import { securityFromFlags } from "./network_manager"] *)
Class NetworkManager := {
  securityFromFlags : value -> value -> value -> result value
}.

(** Modelled from the spec: the [ConnectionTypes] enumeration of model.js,
    which is not among the sources.  Its members are the five types the
    classifier of section 4.3 assigns, under the names the client uses. *)
Inductive ConnectionTypes : Type := ETHERNET | WIFI | LOOPBACK | BOND | VLAN.

(** ** Wire to domain *)

Section Translation.
Context {utils : Utils}.

(** The arrow function that [fromApiDevice] and [fromApiConnection] map
    over [addresses]: ["ip/netmask"] or ["ip"]. *)
Definition addressFromApi (address : value) : result value :=
  s ← asString address;
  let '(ip, netmask) := firstTwo (Str.split "/" s) in
  match netmask with
  | VUndefined => Ok (object [("address", ip)])
  | _ =>
      prefix ← ipPrefixFor netmask;
      Ok (object [("address", ip); ("prefix", prefix)])
  end.

(** The arrow function mapped over [ipConfig.routes4]. *)
Definition route4FromApi (route : value) : result value :=
  d ← getProp route "destination";
  s ← asString d;
  let '(ip, netmask) := firstTwo (Str.split "/" s) in
  prefix ← ipPrefixFor netmask;
  let destination := object [("address", ip); ("prefix", prefix)] in
  Ok (VObj (<["destination" := destination]> (ownProps route))).

(** The arrow function mapped over [ipConfig.routes6]. *)
Definition route6FromApi (route : value) : result value :=
  d ← getProp route "destination";
  s ← asString d;
  let '(ip, netmask) := firstTwo (Str.split "/" s) in
  destination ←
    match netmask with
    | VUndefined => Ok (object [("address", ip)])
    | _ =>
        prefix ← ipPrefixFor netmask;
        Ok (object [("address", ip); ("prefix", prefix)])
    end;
  Ok (VObj (<["destination" := destination]> (ownProps route))).

Definition fromApiDevice (device : value) : result value :=
  let nameservers :=
    orElse (getPropOpt (getPropOpt device "ipConfig") "nameservers") (VArr []) in
  (* const { ipConfig = {}, ...dev } = device; *)
  ipc ← getProp device "ipConfig";
  let ipConfig := match ipc with VUndefined => VObj ∅ | _ => ipc end in
  let dev := delete "ipConfig" (ownProps device) in
  r4 ← getProp ipConfig "routes4";
  l4 ← asArray (orElse r4 (VArr []));
  routes4 ← mapM route4FromApi l4;
  r6 ← getProp ipConfig "routes6";
  l6 ← asArray (orElse r6 (VArr []));
  routes6 ← mapM route6FromApi l6;
  a ← getProp ipConfig "addresses";
  la ← asArray (orElse a (VArr []));
  addresses ← mapM addressFromApi la;
  Ok (VObj (<["routes6" := VArr routes6]>
           (<["routes4" := VArr routes4]>
           (<["nameservers" := nameservers]>
           (<["addresses" := VArr addresses]>
           (ownProps ipConfig ∪ dev)))))).

Definition fromApiConnection (connection : value) : result value :=
  ns ← getProp connection "nameservers";
  let nameservers := orElse ns (VArr []) in
  a ← getProp connection "addresses";
  la ← asArray (orElse a (VArr []));
  addresses ← mapM addressFromApi la;
  Ok (VObj (<["nameservers" := nameservers]>
           (<["addresses" := VArr addresses]> (ownProps connection)))).

Definition connectionType (connection : value) : result ConnectionTypes :=
  wireless ← getProp connection "wireless";
  if truthy wireless then Ok WIFI else
  bond ← getProp connection "bond";
  if truthy bond then Ok BOND else
  vlan ← getProp connection "vlan";
  if truthy vlan then Ok VLAN else
  iface ← getProp connection "iface";
  match iface with
  | VStr "lo" => Ok LOOPBACK
  | _ => Ok ETHERNET
  end.

(** [if (gateway?.trim() !== "") conn.gateway = gateway] *)
Definition setGateway (k : string) (gateway : value)
    (conn : gmap string value) : result (gmap string value) :=
  match gateway with
  | VUndefined | VNull => Ok (<[k := gateway]> conn)
  | VStr s =>
      if String.eqb (Str.trim s) "" then Ok conn else Ok (<[k := gateway]> conn)
  | _ => Throw TypeError
  end.

Definition toApiConnection (connection : value) : result value :=
  a ← getProp connection "addresses";
  la ← asArray (orElse a (VArr []));
  addresses ← mapM formatIp la;
  (* const { iface, gateway4, gateway6, ...conn } = connection; *)
  let iface := getPropOpt connection "iface" in
  let gateway4 := getPropOpt connection "gateway4" in
  let gateway6 := getPropOpt connection "gateway6" in
  let conn :=
    delete "gateway6" (delete "gateway4" (delete "iface" (ownProps connection))) in
  conn ← setGateway "gateway4" gateway4 conn;
  conn ← setGateway "gateway6" gateway6 conn;
  Ok (VObj (<["interface" := iface]> (<["addresses" := VArr addresses]> conn))).

End Translation.

(** ** The HTTP client and asynchronous methods *)

Inductive Method : Type := GET | POST | PUT | DELETE.

Record Request := { method : Method; url : string; payload : option value }.

(** A response has the [ok] flag and the body that [json()] decodes, which
    rejects when the body is not JSON. *)
Record Response := { ok : bool; json : result value }.

Inductive LogEntry : Type :=
| ConsoleError (msg : string) (response : Response).

(** What a method can observe and change outside itself: the requests sent
    to the backend so far, oldest first, and the lines on the console. *)
Record World := { sent : list Request; console : list LogEntry }.

(** [this.client]: the answer to a request may depend on the requests that
    came before it; the promise resolves to a response or rejects. *)
Class HTTPClient := {
  respond : list Request -> Request -> result Response
}.

Definition Async (A : Type) : Type := World -> result A * World.

#[global] Instance Async_ret : MRet Async := fun A a w => (Ok a, w).
#[global] Instance Async_bind : MBind Async := fun A B f m w =>
  match m w with
  | (Ok a, w') => f a w'
  | (Throw e, w') => (Throw e, w')
  end.

(** A synchronous computation inside an asynchronous method. *)
Definition lift {A} (r : result A) : Async A := fun w => (r, w).

Definition consoleError (msg : string) (response : Response) : Async unit :=
  fun w => (Ok tt, {| sent := sent w;
                      console := console w ++ [ConsoleError msg response] |}).

(** [(a, b) => a === b] where one side is a string or another primitive;
    two objects from different places are never identical. *)
Definition strictEq (a b : value) : bool :=
  match a, b with
  | VUndefined, VUndefined | VNull, VNull => true
  | VBool x, VBool y => Bool.eqb x y
  | VNum x, VNum y => x =? y
  | VStr x, VStr y => String.eqb x y
  | _, _ => false
  end.

Definition applyRequest : Request :=
  {| method := PUT; url := "/network/system/apply"; payload := Some (VObj ∅) |}.

(** The requests the methods send. *)
Definition deleteRequest (id : value) : Request :=
  {| method := DELETE; url := "/network/connections/" ++ toString id;
     payload := None |}.

Definition updateRequest (conn : value) : Request :=
  {| method := PUT;
     url := "/network/connections/" ++ toString (getPropOpt conn "id");
     payload := Some conn |}.

Definition addRequest (data : value) : Request :=
  {| method := POST; url := "/network/connections"; payload := Some data |}.

Definition getRequest (path : string) : Request :=
  {| method := GET; url := path; payload := None |}.

Section Gateway.
Context {utils : Utils} {model : Model} {nm : NetworkManager}
        {client : HTTPClient}.

Definition send (q : Request) : Async Response :=
  fun w => (respond (sent w) q,
            {| sent := sent w ++ [q]; console := console w |}).

Definition client_get (path : string) : Async Response :=
  send {| method := GET; url := path; payload := None |}.
Definition client_post (path : string) (data : value) : Async Response :=
  send {| method := POST; url := path; payload := Some data |}.
Definition client_put (path : string) (data : value) : Async Response :=
  send {| method := PUT; url := path; payload := Some data |}.
Definition client_delete (path : string) : Async Response :=
  send {| method := DELETE; url := path; payload := None |}.

Definition devices : Async value :=
  response ← client_get "/network/devices";
  if negb (ok response) then mret (VArr []) else
  devices ← lift (json response);
  l ← lift (asArray devices);
  lift (VArr <$> mapM fromApiDevice l).

Definition connections : Async value :=
  response ← client_get "/network/connections";
  if negb (ok response) then
    _ ← consoleError "Failed to get list of connections" response;
    mret (VArr [])
  else
  connections ← lift (json response);
  l ← lift (asArray connections);
  lift (VArr <$> mapM fromApiConnection l).

(** The arrow function mapped over the access points. *)
Definition accessPointFromApi (ap : value) : result value :=
  ssid ← getProp ap "ssid";
  hwAddress ← getProp ap "hw_address";
  strength ← getProp ap "strength";
  flags ← getProp ap "flags";
  wpa_flags ← getProp ap "wpa_flags";
  rsn_flags ← getProp ap "rsn_flags";
  security ← securityFromFlags flags wpa_flags rsn_flags;
  createAccessPoint (object [("ssid", ssid); ("hwAddress", hwAddress);
                             ("strength", strength); ("security", security)]).

Definition accessPoints : Async value :=
  response ← client_get "/network/wifi";
  if negb (ok response) then
    _ ← consoleError "Failed to get list of APs" response;
    mret (VArr [])
  else
  access_points ← lift (json response);
  l ← lift (asArray access_points);
  lift (VArr <$> mapM accessPointFromApi l).

Definition apply : Async Response :=
  client_put "/network/system/apply" (VObj ∅).

Definition addConnection (connection : value) : Async value :=
  data ← lift (toApiConnection connection);
  response ← client_post "/network/connections" data;
  if negb (ok response) then
    _ ← consoleError "Failed to post list of connections" response;
    mret VNull
  else lift (json response).

Definition connectTo (connection : value) : Async value :=
  conn ← addConnection connection;
  _ ← apply;
  mret conn.

(** [if (options.k) wireless.k = options.k] *)
Definition copyOption (k : string) (options : value)
    (wireless : gmap string value) : result (gmap string value) :=
  v ← getProp options k;
  Ok (if truthy v then <[k := v]> wireless else wireless).

(** The connection [addAndConnectTo] makes for a wireless network. *)
Definition wirelessConnection (ssid options : value) : result value :=
  let wireless : gmap string value :=
    <["mode" := VStr "infrastructure"]> (<["ssid" := ssid]> ∅) in
  wireless ← copyOption "security" options wireless;
  wireless ← copyOption "password" options wireless;
  wireless ← copyOption "hidden" options wireless;
  wireless ← copyOption "mode" options wireless;
  createConnection (object [("id", ssid); ("wireless", VObj wireless)]).

Definition addAndConnectTo (ssid options : value) : Async value :=
  connection ← lift (wirelessConnection ssid options);
  connectTo connection.

(** [connections.find((conn) => conn.id === id)] *)
Fixpoint findById (id : value) (l : list value) : result value :=
  match l with
  | [] => Ok VUndefined
  | conn :: rest =>
      cid ← getProp conn "id";
      if strictEq cid id then Ok conn else findById id rest
  end.

Definition getConnection (id : value) : Async value :=
  connections ← connections;
  l ← lift (asArray connections);
  lift (findById id l).

Definition updateConnection (connection : value) : Async bool :=
  conn ← lift (toApiConnection connection);
  _ ← client_put ("/network/connections/" ++ toString (getPropOpt conn "id")) conn;
  response ← apply;
  mret (ok response).

Definition deleteConnection (id : value) : Async bool :=
  _ ← client_delete ("/network/connections/" ++ toString id);
  response ← apply;
  mret (ok response).

Definition settings : Async value :=
  response ← client_get "/network/settings";
  if negb (ok response) then
    _ ← consoleError "Failed to get settings" response;
    mret (VObj ∅)
  else lift (json response).

End Gateway.

(** ** The address codec of utils.js *)

Module SpecUtils.

Definition octet (s : string) : option Z :=
  n ← Str.toN s;
  if (n <=? 255)%N then Some (Z.of_N n) else None.

(** The 32-bit value of a dotted mask such as 255.255.255.0. *)
Definition parseNetmask (s : string) : option Z :=
  match Str.split "." s with
  | [a; b; c; d] =>
      a ← octet a; b ← octet b; c ← octet c; d ← octet d;
      Some (Z.lor (Z.shiftl a 24) (Z.lor (Z.shiftl b 16) (Z.lor (Z.shiftl c 8) d)))
  | _ => None
  end.

(** The number of one-bits of [m] from bit [width - 1] downwards. *)
Fixpoint leadingOnes (width : nat) (m : Z) : nat :=
  match width with
  | O => O
  | S i => if Z.testbit m (Z.of_nat i) then S (leadingOnes i m) else O
  end.

(** The prefix length of a mask, when nothing is set below its leading ones. *)
Definition prefixOfMask (m : Z) : option Z :=
  let k := leadingOnes 32 m in
  if Z.land m (Z.ones (32 - Z.of_nat k)) =? 0 then Some (Z.of_nat k) else None.

(** Modelled from the spec: [ipPrefixFor] of utils.js, which is not among
    the sources.  Section 4.1: an integer literal up to 128 is the prefix
    itself; a dotted netmask is converted by counting the leading one-bits
    of its 32-bit value, and a mask that is not contiguous fails; section 7:
    nothing is guessed for what cannot be parsed. *)
Definition ipPrefixFor (rest : value) : result value :=
  match rest with
  | VStr s =>
      match Str.toN s with
      | Some n =>
          if (n <=? 128)%N then Ok (VNum (Z.of_N n)) else Throw (MalformedInput s)
      | None =>
          match parseNetmask s with
          | Some m =>
              match prefixOfMask m with
              | Some k => Ok (VNum k)
              | None => Throw (MalformedInput s)
              end
          | None => Throw (MalformedInput s)
          end
      end
  | _ => Throw (MalformedInput (toString rest))
  end.

(** Modelled from the spec: [formatIp] of utils.js, which is not among the
    sources.  Section 4.1: [{address, prefix}] gives ["address/prefix"],
    [{address}] alone gives ["address"]. *)
Definition formatIp (addr : value) : result value :=
  address ← getProp addr "address";
  prefix ← getProp addr "prefix";
  match prefix with
  | VUndefined => Ok (VStr (toString address))
  | _ => Ok (VStr (toString address ++ "/" ++ toString prefix))
  end.

End SpecUtils.

Definition specUtils : Utils :=
  {| formatIp := SpecUtils.formatIp; ipPrefixFor := SpecUtils.ipPrefixFor |}.

(** The codec of section 4.1: [parse] is the arrow function the client maps
    over wire addresses, [format] the inverse it maps over domain ones. *)
Definition parse (s : value) : result value := addressFromApi (utils := specUtils) s.
Definition format (addr : value) : result value := SpecUtils.formatIp addr.

(** ** Vocabulary of the properties *)

(** The array [fromApiDevice] maps a route function over:
    [ipConfig.routes4 || []], and the same for [routes6]. *)
Definition wireRoutes (family : string) (device : value) : value :=
  orElse (getPropOpt (getPropOpt device "ipConfig") family) (VArr []).

(** [route'] is the record [route] with its [destination] string replaced by
    an address object and every other property as it was. *)
Definition sameButDestination (route route' : value) : Prop :=
  exists (m m' d : gmap string value) (s ip : string),
    route = VObj m /\ route' = VObj m'
    /\ m !! "destination" = Some (VStr s)
    /\ head (Str.split "/" s) = Some ip
    /\ m' !! "destination" = Some (VObj d)
    /\ d !! "address" = Some (VStr ip)
    /\ forall k, k <> "destination" -> m' !! k = m !! k.

(** The mask with [k] leading one-bits out of 32, and how it is written. *)
Definition maskOfPrefix (k : Z) : Z := Z.shiftl (Z.ones k) (32 - k).

Definition dotted (m : Z) : string :=
  Str.ofZ (Z.land (Z.shiftr m 24) 255) ++ "."
  ++ Str.ofZ (Z.land (Z.shiftr m 16) 255) ++ "."
  ++ Str.ofZ (Z.land (Z.shiftr m 8) 255) ++ "."
  ++ Str.ofZ (Z.land m 255).

Definition netmaskOfPrefix (k : Z) : string := dotted (maskOfPrefix k).

(** A mask is not contiguous when a one-bit sits below a zero-bit. *)
Definition nonContiguous (m : Z) : Prop :=
  exists i j, 0 <= i < j /\ j < 32
              /\ Z.testbit m i = true /\ Z.testbit m j = false.

(** Integer-prefix notation, well formed: one slash, and after it a decimal
    number up to 128 written without leading zeros. *)
Definition isCidr (s : string) : bool :=
  match Str.split "/" s with
  | [_; d] =>
      match NilZero.uint_of_string d with
      | Some u =>
          (if Decimal.uint_eq_dec (unorm u) u then true else false)
          && (N.of_uint u <=? 128)%N
      | None => false
      end
  | _ => false
  end.

(** ** Sample inputs and collaborators *)

Definition emptyWorld : World := {| sent := []; console := [] |}.

Definition okResponse (body : value) : Response := {| ok := true; json := Ok body |}.
Definition failedResponse : Response := {| ok := false; json := Ok VNull |}.

(** A backend that accepts every request and echoes what was written. *)
Definition acceptingClient : HTTPClient :=
  {| respond := fun _ q => Ok (okResponse (default (VArr []) (payload q))) |}.

(** A backend that refuses every DELETE and accepts the rest. *)
Definition refusingDeleteClient : HTTPClient :=
  {| respond := fun _ q =>
       match method q with
       | DELETE => Ok failedResponse
       | _ => Ok (okResponse VNull)
       end |}.

(** A backend that accepts every write and refuses to apply. *)
Definition refusingApplyClient : HTTPClient :=
  {| respond := fun _ q =>
       if String.eqb (url q) "/network/system/apply" then Ok failedResponse
       else Ok (okResponse VNull) |}.

(** A backend that is down: every response is a failure. *)
Definition failingClient : HTTPClient :=
  {| respond := fun _ _ => Ok failedResponse |}.

(** Factories that hand back the properties they were given, and a decoder
    that keeps the RSN flags: stand-ins for model.js and network_manager.js
    where a run needs some. *)
Definition plainModel : Model :=
  {| createConnection := Ok; createAccessPoint := Ok |}.
Definition plainNetworkManager : NetworkManager :=
  {| securityFromFlags := fun _ _ rsn => Ok (VArr [rsn]) |}.

(** The wire connection of the end-to-end example of section 8. *)
Definition eth0Wire : value :=
  object [("id", VStr "eth0");
          ("addresses", VArr [VStr "192.168.1.10/24"]);
          ("nameservers", VArr [VStr "8.8.8.8"]);
          ("iface", VStr "eth0")].

Definition eth0Domain : value :=
  object [("id", VStr "eth0");
          ("addresses", VArr [object [("address", VStr "192.168.1.10");
                                      ("prefix", VNum 24)]]);
          ("nameservers", VArr [VStr "8.8.8.8"]);
          ("iface", VStr "eth0")].

(** What [toApiConnection] sends for it: the absent gateways are copied as
    [undefined] and [iface] is renamed. *)
Definition eth0Api : value :=
  object [("id", VStr "eth0");
          ("addresses", VArr [VStr "192.168.1.10/24"]);
          ("nameservers", VArr [VStr "8.8.8.8"]);
          ("gateway4", VUndefined);
          ("gateway6", VUndefined);
          ("interface", VStr "eth0")].

(** A backend whose only connection is the one of the example. *)
Definition eth0Client : HTTPClient :=
  {| respond := fun _ q =>
       if String.eqb (url q) "/network/connections"
       then Ok (okResponse (VArr [eth0Wire]))
       else Ok failedResponse |}.

(** A record whose [wireless] field is there and holds [null], next to a
    bond marker. *)
Definition nullWirelessBond : value :=
  object [("id", VStr "bond0"); ("wireless", VNull); ("bond", VObj ∅);
          ("iface", VStr "bond0")].

Definition wifiAndBond : value :=
  object [("id", VStr "home"); ("wireless", VObj {["ssid" := VStr "home"]});
          ("bond", VObj ∅); ("iface", VStr "wlan0")].

(** A prefix helper in the manner of [parseInt]: it reads the digits and
    answers [NaN] for anything else. *)
Definition parseIntUtils : Utils :=
  {| formatIp := SpecUtils.formatIp;
     ipPrefixFor := fun v =>
       match v with
       | VStr s => Ok (default VNaN (VNum ∘ Z.of_N <$> Str.toN s))
       | _ => Ok VNaN
       end |}.

(** A wire device whose routes carry more than destination, next hop and
    metric. *)
Definition route4Wire : value :=
  object [("destination", VStr "192.168.1.0/24"); ("nextHop", VStr "192.168.1.1");
          ("metric", VNum 100); ("table", VNum 254)].
Definition route6Wire : value :=
  object [("destination", VStr "fe80::"); ("metric", VNum 256);
          ("proto", VStr "kernel")].
Definition eth0Device : value :=
  object [("name", VStr "eth0"); ("type", VNum 1);
          ("ipConfig",
           object [("method4", VStr "auto");
                   ("addresses", VArr [VStr "192.168.1.10/24"]);
                   ("nameservers", VArr [VStr "8.8.8.8"]);
                   ("routes4", VArr [route4Wire]);
                   ("routes6", VArr [route6Wire])])].

Definition eth0DeviceDomain : value :=
  object [("name", VStr "eth0"); ("type", VNum 1); ("method4", VStr "auto");
          ("addresses", VArr [object [("address", VStr "192.168.1.10");
                                      ("prefix", VNum 24)]]);
          ("nameservers", VArr [VStr "8.8.8.8"]);
          ("routes4",
           VArr [object [("destination",
                          object [("address", VStr "192.168.1.0");
                                  ("prefix", VNum 24)]);
                         ("nextHop", VStr "192.168.1.1");
                         ("metric", VNum 100); ("table", VNum 254)]]);
          ("routes6",
           VArr [object [("destination", object [("address", VStr "fe80::")]);
                         ("metric", VNum 256); ("proto", VStr "kernel")]])].

(** An IPv4 route to a host, written without a prefix. *)
Definition hostRoute : gmap string value :=
  <["destination" := VStr "10.0.0.1"]> (<["metric" := VNum 50]> ∅).

(** ** The addresses of all connections *)

(** [conns.flatMap(c => c.addresses)]: an array is spliced in, anything else
    is kept as one element. *)
Fixpoint flatAddresses (conns : list value) : result (list value) :=
  match conns with
  | [] => Ok []
  | c :: rest =>
      a ← getProp c "addresses";
      more ← flatAddresses rest;
      Ok (match a with
          | VArr l => l ++ more
          | _ => a :: more
          end)%list
  end.

Section Addresses.
Context {utils : Utils} {client : HTTPClient}.

Definition addresses : Async value :=
  conns ← connections;
  l ← lift (asArray conns);
  lift (VArr <$> flatAddresses l).

End Addresses.

(** ** More vocabulary *)

(** Only whitespace, or nothing at all. *)
Fixpoint isBlank (s : string) : bool :=
  match s with
  | EmptyString => true
  | String c rest => Str.isSpace c && isBlank rest
  end.

(** The [addresses] array of a domain or wire object, empty when the
    property is not an array. *)
Definition addressesOf (c : value) : list value :=
  match getPropOpt c "addresses" with
  | VArr l => l
  | _ => []
  end.

(** [conn] is a connection with the given id, as [find] tests it. *)
Definition hasId (id conn : value) : bool :=
  strictEq (getPropOpt conn "id") id.

Definition isObject (v : value) : bool :=
  match v with VObj _ => true | _ => false end.

Definition isArray (v : value) : bool :=
  match v with VArr _ => true | _ => false end.

(** The world after one GET was sent and nothing was logged. *)
Definition afterGet (path : string) (w : World) : World :=
  {| sent := sent w ++ [getRequest path]; console := console w |}.

(** ** More sample inputs *)

(** A wire access point, with a field the client has no use for. *)
Definition homeAp : gmap string value :=
  <["ssid" := VStr "Home"]> (<["hw_address" := VStr "AA:BB:CC:DD:EE:FF"]>
  (<["strength" := VNum 80]> (<["flags" := VNum 0]> (<["wpa_flags" := VNum 0]>
  (<["rsn_flags" := VNum 1]> (<["frequency" := VNum 2412]> ∅)))))).

(** A device that reports the same property inside and outside of
    [ipConfig]. *)
Definition shadowedDevice : gmap string value :=
  <["name" := VStr "eth0"]> (<["mtu" := VNum 1500]>
  (<["ipConfig" := VObj (<["mtu" := VNum 9000]> (<["method4" := VStr "auto"]> ∅))]> ∅)).

(** A connection with a gateway of blanks and one that is a number. *)
Definition blankGateway : gmap string value :=
  <["id" := VStr "eth0"]> (<["iface" := VStr "eth0"]> (<["gateway4" := VStr "  "]> ∅)).
Definition numericGateway : value :=
  object [("id", VStr "eth0"); ("gateway4", VNum 1)].

(** A backend that refuses every POST and accepts the rest. *)
Definition refusingPostClient : HTTPClient :=
  {| respond := fun _ q =>
       match method q with
       | POST => Ok failedResponse
       | _ => Ok (okResponse VNull)
       end |}.

(** A backend that answers every read with an object instead of a list. *)
Definition objectBodyClient : HTTPClient :=
  {| respond := fun _ _ => Ok (okResponse (VObj ∅)) |}.

(** A backend with two connections. *)
Definition wlan0Wire : value :=
  object [("id", VStr "wlan0");
          ("addresses", VArr [VStr "10.0.0.2/8"; VStr "fe80::2"]);
          ("wireless", object [("ssid", VStr "Home")])].
Definition twoConnectionsClient : HTTPClient :=
  {| respond := fun _ q =>
       if String.eqb (url q) "/network/connections"
       then Ok (okResponse (VArr [eth0Wire; wlan0Wire]))
       else Ok failedResponse |}.

(** A backend whose lists have a [null] among the records. *)
Definition nullRecordClient : HTTPClient :=
  {| respond := fun _ _ => Ok (okResponse (VArr [eth0Wire; VNull])) |}.

(** The options of a hidden network with a password. *)
Definition hiddenNetwork : gmap string value :=
  <["password" := VStr "secret"]> (<["hidden" := VBool true]>
  (<["security" := VStr ""]> ∅)).

Definition wlan0Domain : value :=
  object [("id", VStr "wlan0");
          ("addresses", VArr [object [("address", VStr "10.0.0.2");
                                      ("prefix", VNum 8)];
                              object [("address", VStr "fe80::2")]]);
          ("nameservers", VArr []);
          ("wireless", object [("ssid", VStr "Home")])].

(** Text of ASCII characters only, where the whitespace that [trim] strips
    is the six characters of [Str.isSpace]. *)
Fixpoint isAsciiText (s : string) : bool :=
  match s with
  | EmptyString => true
  | String c rest => (nat_of_ascii c <? 128)%nat && isAsciiText rest
  end.

(** A backend that accepts every request with a body that is not JSON. *)
Definition undecodableBodyClient : HTTPClient :=
  {| respond := fun _ _ => Ok {| ok := true; json := Throw SyntaxError |} |}.


(** * Properties *)

(** ** Running asynchronous methods *)

Section Sequencing.
Context {utils : Utils} {model : Model} {nm : NetworkManager}
        {client : HTTPClient}.

Lemma bind_run {A B} (m : Async A) (f : A -> Async B) (w : World) :
  (m ≫= f) w = match m w with
               | (Ok a, w') => f a w'
               | (Throw e, w') => (Throw e, w')
               end.
Proof. reflexivity. Qed.

Lemma lift_bind {A B} (r : result A) (f : A -> Async B) (w : World) :
  (lift r ≫= f) w = match r with
                    | Ok a => f a w
                    | Throw e => (Throw e, w)
                    end.
Proof. by destruct r. Qed.

Lemma send_run (q : Request) (w : World) :
  send q w = (respond (sent w) q,
               {| sent := sent w ++ [q]; console := console w |}).
Proof. reflexivity. Qed.

Lemma apply_run (w : World) :
  apply w = (respond (sent w) applyRequest,
             {| sent := sent w ++ [applyRequest]; console := console w |}).
Proof. reflexivity. Qed.

(** A write that got its response, followed by [apply]: the two requests
    are sent in this order and the verdict is that of [apply] alone. *)
Lemma write_then_apply (q : Request) (w : World) (r1 r2 : Response) :
  respond (sent w) q = Ok r1 ->
  respond (sent w ++ [q]) applyRequest = Ok r2 ->
  (_ ← send q; response ← apply; mret (ok response)) w
  = (Ok (ok r2),
     {| sent := sent w ++ [q; applyRequest]; console := console w |}).
Proof.
  intros Hq Ha.
  rewrite bind_run, send_run, Hq, bind_run, apply_run. cbn [sent console].
  rewrite Ha. cbn. by rewrite <- app_assoc.
Qed.

Lemma write_then_apply_sent {A} (q : Request) (w : World) (r1 : Response)
    (k : Response -> Async A) :
  respond (sent w) q = Ok r1 ->
  (forall r w', sent (k r w').2 = sent w') ->
  sent ((_ ← send q; response ← apply; k response) w).2
  = (sent w ++ [q; applyRequest])%list.
Proof.
  intros Hq Hk.
  rewrite bind_run, send_run, Hq, bind_run, apply_run. cbn [sent console].
  destruct (respond _ applyRequest) as [r2|e];
    [rewrite Hk|]; cbn [snd sent]; by rewrite <- app_assoc.
Qed.

Lemma deleteConnection_run (id : value) (w : World) (r1 r2 : Response) :
  respond (sent w) (deleteRequest id) = Ok r1 ->
  respond (sent w ++ [deleteRequest id]) applyRequest = Ok r2 ->
  deleteConnection id w
  = (Ok (ok r2),
     {| sent := sent w ++ [deleteRequest id; applyRequest];
        console := console w |}).
Proof. intros Hq Ha. by eapply write_then_apply. Qed.

Lemma updateConnection_run (connection conn : value) (w : World)
    (r1 r2 : Response) :
  toApiConnection connection = Ok conn ->
  respond (sent w) (updateRequest conn) = Ok r1 ->
  respond (sent w ++ [updateRequest conn]) applyRequest = Ok r2 ->
  updateConnection connection w
  = (Ok (ok r2),
     {| sent := sent w ++ [updateRequest conn; applyRequest];
        console := console w |}).
Proof.
  intros Hc Hq Ha. unfold updateConnection.
  rewrite bind_run. unfold lift at 1. rewrite Hc.
  by eapply write_then_apply.
Qed.

(** [addConnection] sends at most its POST. *)
Lemma addConnection_sent (connection : value) (w : World) :
  sent (addConnection connection w).2 = sent w
  \/ exists data, toApiConnection connection = Ok data
                  /\ sent (addConnection connection w).2
                     = (sent w ++ [addRequest data])%list.
Proof.
  unfold addConnection. rewrite bind_run. unfold lift at 1.
  destruct (toApiConnection connection) as [data|e]; [|by left].
  right. exists data. split; [done|].
  unfold lift at 1. cbn beta iota.
  rewrite bind_run. unfold client_post. rewrite send_run.
  destruct (respond (sent w) _) as [r|e]; [|done].
  destruct (ok r); done.
Qed.

Lemma addConnection_returned (connection conn : value) (w w' : World) :
  addConnection connection w = (Ok conn, w') ->
  exists data, sent w' = (sent w ++ [addRequest data])%list.
Proof.
  unfold addConnection. rewrite lift_bind.
  destruct (toApiConnection connection) as [data|e]; [|done].
  rewrite bind_run. unfold client_post. rewrite send_run.
  destruct (respond (sent w) _) as [r|e]; [|done].
  destruct (ok r); cbn; intros [= _ <-]; by exists data.
Qed.

(** [addConnection] once its POST was answered. *)
Lemma addConnection_run (connection data : value) (r : Response) (w : World) :
  toApiConnection connection = Ok data ->
  respond (sent w) (addRequest data) = Ok r ->
  addConnection connection w
  = (if negb (ok r)
     then _ ← consoleError "Failed to post list of connections" r; mret VNull
     else lift (json r))
      {| sent := sent w ++ [addRequest data]; console := console w |}.
Proof.
  intros Hd Hr. unfold addConnection. rewrite lift_bind, Hd, bind_run.
  unfold client_post. rewrite send_run. fold (addRequest data).
  by rewrite Hr.
Qed.

Lemma connectTo_run (connection conn : value) (w w' : World) :
  addConnection connection w = (Ok conn, w') ->
  sent (connectTo connection w).2 = (sent w' ++ [applyRequest])%list.
Proof.
  intros Ha. unfold connectTo. rewrite bind_run, Ha, bind_run, apply_run.
  by destruct (respond (sent w') applyRequest).
Qed.

End Sequencing.

(** ** The mutating operations *)

Section Mutations.
Context {utils : Utils} {model : Model} {nm : NetworkManager}
        {client : HTTPClient}.

(** C1.  What [deleteConnection] does when the backend refuses the DELETE
    and then accepts the apply call: both requests are sent and the method
    resolves to [true], the verdict of the apply call alone. *)
Theorem deleteConnection_true_after_refused_delete
    (id : value) (w : World) (r1 r2 : Response) :
  respond (sent w) (deleteRequest id) = Ok r1 ->
  respond (sent w ++ [deleteRequest id]) applyRequest = Ok r2 ->
  ok r1 = false ->
  ok r2 = true ->
  deleteConnection id w
  = (Ok true,
     {| sent := sent w ++ [deleteRequest id; applyRequest];
        console := console w |}).
Proof.
  intros Hd Ha _ Hok. rewrite (deleteConnection_run id w r1 r2 Hd Ha).
  by rewrite Hok.
Qed.

(** C6.  When the PUT of [updateConnection] got its response and the apply
    call is answered, the method resolves to the [ok] flag of the apply
    response: [false] when the update succeeded and the apply failed, and
    [true] exactly when the apply succeeded, whatever the update did. *)
Theorem updateConnection_apply_coupling
    (connection conn : value) (w : World) (r1 r2 : Response) :
  toApiConnection connection = Ok conn ->
  respond (sent w) (updateRequest conn) = Ok r1 ->
  respond (sent w ++ [updateRequest conn]) applyRequest = Ok r2 ->
  (ok r1 = true -> ok r2 = false -> (updateConnection connection w).1 = Ok false)
  /\ ((updateConnection connection w).1 = Ok true <-> ok r2 = true)
  /\ (updateConnection connection w).1 = Ok (ok r2).
Proof.
  intros Hc Hq Ha.
  rewrite (updateConnection_run connection conn w r1 r2 Hc Hq Ha). cbn [fst].
  split; [by intros _ ->|]. split; [|done].
  split; [by intros [= ->]|by intros ->].
Qed.

(** [addAndConnectTo] is [connectTo] on the connection it makes. *)
Lemma addAndConnectTo_connectTo (ssid options connection : value) (w : World) :
  wirelessConnection ssid options = Ok connection ->
  addAndConnectTo ssid options w = connectTo connection w.
Proof. intros Hc. unfold addAndConnectTo. by rewrite lift_bind, Hc. Qed.

(** What [connectTo] does once the POST of [addConnection] was answered. *)
Lemma connectTo_answered (connection data : value) (r : Response) (w : World) :
  toApiConnection connection = Ok data ->
  respond (sent w) (addRequest data) = Ok r ->
  (forall e, ok r = true -> json r = Throw e ->
     connectTo connection w
     = (Throw e, {| sent := sent w ++ [addRequest data]; console := console w |}))
  /\ ((ok r = true -> exists body, json r = Ok body) ->
      sent (connectTo connection w).2
      = (sent w ++ [addRequest data; applyRequest])%list).
Proof.
  intros Hd Hr. pose proof (addConnection_run _ _ _ _ Hd Hr) as Hadd.
  split.
  - intros e Hok He. rewrite Hok in Hadd. cbn [negb] in Hadd.
    unfold lift in Hadd. rewrite He in Hadd.
    unfold connectTo. by rewrite bind_run, Hadd.
  - intros Hbody. destruct (ok r) eqn:Hok.
    + destruct (Hbody eq_refl) as [body Hb]. cbn [negb] in Hadd.
      unfold lift in Hadd. rewrite Hb in Hadd.
      rewrite (connectTo_run _ _ _ _ Hadd). cbn [sent].
      by rewrite <- (assoc_L app).
    + change (addConnection connection w
              = (Ok VNull,
                 {| sent := sent w ++ [addRequest data];
                    console := console w
                      ++ [ConsoleError "Failed to post list of connections" r] |}))
        in Hadd.
      rewrite (connectTo_run _ _ _ _ Hadd). cbn [sent].
      by rewrite <- (assoc_L app).
Qed.

(** C2, as the client does it.  [deleteConnection] and [updateConnection]
    send the apply request right after their write was answered.
    [connectTo] and [addAndConnectTo] send it right after [addConnection]
    returned: after the POST was answered and, when the answer is ok, its
    body was decoded; when the body of an ok answer cannot be decoded they
    throw after the POST and send no apply request.  [addConnection] sends
    nothing but its POST, and leaves the commit to its caller. *)
Theorem writes_followed_by_apply
    (connection ssid options id : value) (w : World) :
  (forall r, respond (sent w) (deleteRequest id) = Ok r ->
     sent (deleteConnection id w).2
     = (sent w ++ [deleteRequest id; applyRequest])%list)
  /\ (forall conn r,
        toApiConnection connection = Ok conn ->
        respond (sent w) (updateRequest conn) = Ok r ->
        sent (updateConnection connection w).2
        = (sent w ++ [updateRequest conn; applyRequest])%list)
  /\ (forall data r,
        toApiConnection connection = Ok data ->
        respond (sent w) (addRequest data) = Ok r ->
        (ok r = true -> exists body, json r = Ok body) ->
        sent (connectTo connection w).2
        = (sent w ++ [addRequest data; applyRequest])%list)
  /\ (forall wifi data r,
        wirelessConnection ssid options = Ok wifi ->
        toApiConnection wifi = Ok data ->
        respond (sent w) (addRequest data) = Ok r ->
        (ok r = true -> exists body, json r = Ok body) ->
        sent (addAndConnectTo ssid options w).2
        = (sent w ++ [addRequest data; applyRequest])%list)
  /\ (forall data r e,
        toApiConnection connection = Ok data ->
        respond (sent w) (addRequest data) = Ok r ->
        ok r = true -> json r = Throw e ->
        connectTo connection w
        = (Throw e,
           {| sent := sent w ++ [addRequest data]; console := console w |}))
  /\ (forall wifi data r e,
        wirelessConnection ssid options = Ok wifi ->
        toApiConnection wifi = Ok data ->
        respond (sent w) (addRequest data) = Ok r ->
        ok r = true -> json r = Throw e ->
        addAndConnectTo ssid options w
        = (Throw e,
           {| sent := sent w ++ [addRequest data]; console := console w |}))
  /\ (forall q, In q (sent (addConnection connection w).2) ->
        In q (sent w) \/ method q = POST).
Proof.
  split; [|split; [|split; [|split; [|split; [|split]]]]].
  - intros r Hr. unfold deleteConnection, client_delete.
    by eapply write_then_apply_sent.
  - intros conn r Hc Hr. unfold updateConnection.
    rewrite bind_run. unfold lift at 1. rewrite Hc.
    unfold client_put. by eapply write_then_apply_sent.
  - intros data r Hd Hr Hbody.
    by apply (proj2 (connectTo_answered _ _ _ _ Hd Hr)).
  - intros wifi data r Hw Hd Hr Hbody.
    rewrite (addAndConnectTo_connectTo _ _ _ _ Hw).
    by apply (proj2 (connectTo_answered _ _ _ _ Hd Hr)).
  - intros data r e Hd Hr Hok He.
    by apply (proj1 (connectTo_answered _ _ _ _ Hd Hr)).
  - intros wifi data r e Hw Hd Hr Hok He.
    rewrite (addAndConnectTo_connectTo _ _ _ _ Hw).
    by apply (proj1 (connectTo_answered _ _ _ _ Hd Hr)).
  - intros q Hq.
    destruct (addConnection_sent connection w) as [Hs|(data & _ & Hs)];
      rewrite Hs in Hq; [by left|].
    apply in_app_or in Hq as [Hq|[<-|[]]]; [by left|by right].
Qed.

End Mutations.

Lemma deleteConnection_true_after_refused_delete_witness :
  ok failedResponse = false
  /\ deleteConnection (client := refusingDeleteClient) (VStr "eth0") emptyWorld
     = (Ok true,
        {| sent := [deleteRequest (VStr "eth0"); applyRequest]; console := [] |}).
Proof.
  split; [reflexivity|].
  apply (deleteConnection_true_after_refused_delete
           (client := refusingDeleteClient) (VStr "eth0") emptyWorld
           failedResponse (okResponse VNull)); reflexivity.
Defined.

Lemma updateConnection_apply_coupling_witness :
  toApiConnection (utils := specUtils) eth0Domain = Ok eth0Api
  /\ ok (okResponse VNull) = true
  /\ ok failedResponse = false
  /\ (updateConnection (utils := specUtils) (client := refusingApplyClient)
        eth0Domain emptyWorld).1 = Ok false.
Proof.
  assert (Hc : toApiConnection (utils := specUtils) eth0Domain = Ok eth0Api)
    by (vm_compute; reflexivity).
  split; [exact Hc|]. split; [reflexivity|]. split; [reflexivity|].
  apply (updateConnection_apply_coupling
           (utils := specUtils) (client := refusingApplyClient)
           eth0Domain eth0Api emptyWorld (okResponse VNull) failedResponse
           Hc eq_refl eq_refl); reflexivity.
Defined.

(** C2, as stated, fails for [addConnection]: against a backend that accepts
    everything it returns after its POST, and no apply request was sent. *)
Lemma addConnection_is_a_bare_write :
  let run := addConnection (utils := specUtils) (client := acceptingClient)
               eth0Domain emptyWorld in
  run.1 = Ok eth0Api
  /\ sent run.2 = [addRequest eth0Api]
  /\ ~ In applyRequest (sent run.2).
Proof.
  assert (Hrun : addConnection (utils := specUtils) (client := acceptingClient)
                   eth0Domain emptyWorld
                 = (Ok eth0Api, {| sent := [addRequest eth0Api]; console := [] |}))
    by (vm_compute; reflexivity).
  cbv zeta. rewrite Hrun. cbn [fst snd sent].
  split; [done|]. split; [done|].
  intros [Heq|[]]. discriminate Heq.
Qed.

Lemma writes_followed_by_apply_witness :
  sent (deleteConnection (client := acceptingClient) (VStr "eth0") emptyWorld).2
  = [deleteRequest (VStr "eth0"); applyRequest]
  /\ sent (updateConnection (utils := specUtils) (client := acceptingClient)
             eth0Domain emptyWorld).2
     = [updateRequest eth0Api; applyRequest]
  /\ toApiConnection (utils := specUtils) eth0Domain = Ok eth0Api
  /\ sent (connectTo (utils := specUtils) (client := acceptingClient)
             eth0Domain emptyWorld).2
     = [addRequest eth0Api; applyRequest]
  /\ (exists data,
        sent (addAndConnectTo (utils := specUtils) (model := plainModel)
                (client := acceptingClient) (VStr "home") (VObj ∅) emptyWorld).2
        = [addRequest data; applyRequest])
  /\ connectTo (utils := specUtils) (client := undecodableBodyClient)
       eth0Domain emptyWorld
     = (Throw SyntaxError,
        {| sent := [addRequest eth0Api]; console := [] |}).
Proof.
  assert (Hapi : toApiConnection (utils := specUtils) eth0Domain = Ok eth0Api)
    by (vm_compute; reflexivity).
  destruct (writes_followed_by_apply
              (utils := specUtils) (model := plainModel)
              (client := acceptingClient)
              eth0Domain (VStr "home") (VObj ∅) (VStr "eth0") emptyWorld)
    as (Hd & Hu & Hc & Hw & _).
  destruct (writes_followed_by_apply
              (utils := specUtils) (model := plainModel)
              (client := undecodableBodyClient)
              eth0Domain (VStr "home") (VObj ∅) (VStr "eth0") emptyWorld)
    as (_ & _ & _ & _ & Hthrow & _).
  split; [exact (Hd _ eq_refl)|].
  split; [exact (Hu eth0Api (okResponse eth0Api) Hapi eq_refl)|].
  split; [exact Hapi|].
  split.
  { apply (Hc eth0Api (okResponse eth0Api) Hapi eq_refl).
    intros _. by exists eth0Api. }
  split.
  { destruct (toApiConnection (utils := specUtils)
                (object [("id", VStr "home");
                         ("wireless",
                          VObj (<["mode" := VStr "infrastructure"]>
                                  (<["ssid" := VStr "home"]> ∅)))]))
      as [data|e] eqn:Hdata; [|vm_compute in Hdata; discriminate Hdata].
    exists data.
    apply (Hw _ data (okResponse data) eq_refl Hdata eq_refl).
    intros _. by exists data. }
  exact (Hthrow eth0Api {| ok := true; json := Throw SyntaxError |} SyntaxError
           Hapi eq_refl eq_refl eq_refl).
Defined.

(** ** Reading from a backend that fails *)

Section Reads.
Context {utils : Utils} {model : Model} {nm : NetworkManager}
        {client : HTTPClient}.

(** C5.  On a response that is not ok, [devices], [connections] and
    [accessPoints] resolve to the empty list and [settings] to the empty
    object; none of them throws.  [connections], [accessPoints] and
    [settings] write the failure to the console, [devices] writes
    nothing. *)
Theorem reads_soft_fail (w : World) (r : Response) :
  ok r = false ->
  (respond (sent w) (getRequest "/network/devices") = Ok r ->
     devices w
     = (Ok (VArr []),
        {| sent := sent w ++ [getRequest "/network/devices"];
           console := console w |}))
  /\ (respond (sent w) (getRequest "/network/connections") = Ok r ->
        connections w
        = (Ok (VArr []),
           {| sent := sent w ++ [getRequest "/network/connections"];
              console := console w
                ++ [ConsoleError "Failed to get list of connections" r] |}))
  /\ (respond (sent w) (getRequest "/network/wifi") = Ok r ->
        accessPoints w
        = (Ok (VArr []),
           {| sent := sent w ++ [getRequest "/network/wifi"];
              console := console w
                ++ [ConsoleError "Failed to get list of APs" r] |}))
  /\ (respond (sent w) (getRequest "/network/settings") = Ok r ->
        settings w
        = (Ok (VObj ∅),
           {| sent := sent w ++ [getRequest "/network/settings"];
              console := console w
                ++ [ConsoleError "Failed to get settings" r] |})).
Proof.
  intros Hr.
  repeat split; intros Hq;
    unfold devices, connections, accessPoints, settings, client_get;
    rewrite bind_run, send_run; fold (getRequest "/network/devices");
    fold (getRequest "/network/connections"); fold (getRequest "/network/wifi");
    fold (getRequest "/network/settings");
    rewrite Hq, Hr; reflexivity.
Qed.

End Reads.

Lemma reads_soft_fail_witness :
  ok failedResponse = false
  /\ devices (utils := specUtils) (client := failingClient) emptyWorld
     = (Ok (VArr []),
        {| sent := [getRequest "/network/devices"]; console := [] |})
  /\ connections (utils := specUtils) (client := failingClient) emptyWorld
     = (Ok (VArr []),
        {| sent := [getRequest "/network/connections"];
           console := [ConsoleError "Failed to get list of connections"
                         failedResponse] |}).
Proof.
  destruct (reads_soft_fail (utils := specUtils) (model := plainModel)
              (nm := plainNetworkManager) (client := failingClient)
              emptyWorld failedResponse eq_refl) as (Hd & Hc & _ & _).
  split; [reflexivity|]. split; [exact (Hd eq_refl)|exact (Hc eq_refl)].
Defined.

(** ** The classifier *)

Section Classifier.

(** The last test: [iface === "lo"] or anything else. *)
Lemma iface_cases (iface : value) :
  (iface = VStr "lo"
   /\ match iface with VStr "lo" => Ok LOOPBACK | _ => Ok ETHERNET end
      = Ok LOOPBACK)
  \/ match iface with VStr "lo" => Ok LOOPBACK | _ => Ok ETHERNET end
     = Ok ETHERNET.
Proof.
  destruct iface as [| | | | |s| |]; try by right.
  destruct s as [|a s]; [by right|].
  destruct a as [[] [] [] [] [] [] [] []]; try by right.
  destruct s as [|a s]; [by right|].
  destruct a as [[] [] [] [] [] [] [] []]; try by right.
  destruct s; [by left|by right].
Qed.

(** C4, as the client does it.  On every record [connectionType] returns a
    type, and the first test that passes decides, in the order wireless,
    bond, vlan, [iface === "lo"], ethernet.  A test passes when the field
    holds a truthy value, as every settings object is; a field that is
    there with [null], [false], [0] or the empty string counts as absent. *)
Theorem connectionType_first_match (m : gmap string value) :
  let field k := default VUndefined (m !! k) in
  (exists t, connectionType (VObj m) = Ok t)
  /\ (truthy (field "wireless") = true -> connectionType (VObj m) = Ok WIFI)
  /\ (forall w, m !! "wireless" = Some (VObj w) ->
        connectionType (VObj m) = Ok WIFI)
  /\ (truthy (field "wireless") = false -> truthy (field "bond") = true ->
        connectionType (VObj m) = Ok BOND)
  /\ (truthy (field "wireless") = false -> truthy (field "bond") = false ->
      truthy (field "vlan") = true ->
        connectionType (VObj m) = Ok VLAN)
  /\ (truthy (field "wireless") = false -> truthy (field "bond") = false ->
      truthy (field "vlan") = false ->
        (field "iface" = VStr "lo" -> connectionType (VObj m) = Ok LOOPBACK)
        /\ (field "iface" <> VStr "lo" ->
              connectionType (VObj m) = Ok ETHERNET)).
Proof.
  cbv zeta. unfold connectionType. cbn [getProp mbind result_bind].
  split; [|split; [|split; [|split; [|split]]]].
  - repeat (destruct (truthy _); [by eexists|]).
    destruct (iface_cases (default VUndefined (m !! "iface"))) as [[_ ->]| ->];
      by eexists.
  - by intros ->.
  - by intros w ->.
  - by intros -> ->.
  - by intros -> -> ->.
  - intros -> -> ->. split.
    + by intros ->.
    + intros Hne.
      by destruct (iface_cases (default VUndefined (m !! "iface"))) as [[? _]| ->].
Qed.

End Classifier.

Lemma connectionType_first_match_witness :
  connectionType wifiAndBond = Ok WIFI
  /\ connectionType (object [("iface", VStr "lo")]) = Ok LOOPBACK
  /\ connectionType (object [("iface", VStr "eth0")]) = Ok ETHERNET.
Proof.
  split.
  - refine (proj1 (proj2 (proj2 (connectionType_first_match _))) _ _).
    vm_compute. reflexivity.
  - split.
    + refine (proj1 (proj2 (proj2 (proj2 (proj2 (proj2
                (connectionType_first_match _))))) _ _ _) _);
        vm_compute; reflexivity.
    + refine (proj2 (proj2 (proj2 (proj2 (proj2 (proj2
                (connectionType_first_match _))))) _ _ _) _);
        try (vm_compute; reflexivity).
      vm_compute. discriminate.
Defined.

(** C4, as stated, fails: the record has a [wireless] field and a bond
    marker, and is classified as a bond. *)
Lemma present_wireless_field_classified_as_bond :
  ownProps nullWirelessBond !! "wireless" = Some VNull
  /\ connectionType nullWirelessBond = Ok BOND.
Proof. split; vm_compute; reflexivity. Qed.

(** ** The end-to-end example *)

Section EndToEnd.
Context {utils : Utils} {client : HTTPClient}.

Lemma addressFromApi_eth0 :
  ipPrefixFor (VStr "24") = Ok (VNum 24) ->
  addressFromApi (VStr "192.168.1.10/24")
  = Ok (object [("address", VStr "192.168.1.10"); ("prefix", VNum 24)]).
Proof.
  intros Hp. unfold addressFromApi. cbn [asString mbind result_bind].
  replace (firstTwo (Str.split "/" "192.168.1.10/24"))
    with (VStr "192.168.1.10", VStr "24") by (vm_compute; reflexivity).
  cbn beta iota. by rewrite Hp.
Qed.

Lemma fromApiConnection_eth0 :
  ipPrefixFor (VStr "24") = Ok (VNum 24) ->
  fromApiConnection eth0Wire = Ok eth0Domain.
Proof.
  intros Hp. unfold fromApiConnection.
  replace (getProp eth0Wire "nameservers") with (Ok (VArr [VStr "8.8.8.8"]))
    by (vm_compute; reflexivity).
  replace (getProp eth0Wire "addresses")
    with (Ok (VArr [VStr "192.168.1.10/24"])) by (vm_compute; reflexivity).
  cbn [mbind result_bind orElse truthy asArray mapM].
  rewrite (addressFromApi_eth0 Hp). cbn [mbind result_bind mret result_ret].
  vm_compute. reflexivity.
Qed.

(** C3, as the client does it.  With a prefix helper that reads "24" as 24,
    [connections] turns the wire connection of the example into the domain
    connection with the same id and iface, the address split into address
    and prefix, and the same nameservers.  The result has no [type]
    property; [connectionType] of it is ETHERNET. *)
Theorem eth0_end_to_end (w : World) :
  ipPrefixFor (VStr "24") = Ok (VNum 24) ->
  respond (sent w) (getRequest "/network/connections")
  = Ok (okResponse (VArr [eth0Wire])) ->
  (connections w).1 = Ok (VArr [eth0Domain])
  /\ fromApiConnection eth0Wire = Ok eth0Domain
  /\ getProp eth0Domain "id" = Ok (VStr "eth0")
  /\ getProp eth0Domain "addresses"
     = Ok (VArr [object [("address", VStr "192.168.1.10"); ("prefix", VNum 24)]])
  /\ getProp eth0Domain "nameservers" = Ok (VArr [VStr "8.8.8.8"])
  /\ ownProps eth0Domain !! "type" = None
  /\ connectionType eth0Domain = Ok ETHERNET.
Proof.
  intros Hp Hq. split; [|split; [by apply fromApiConnection_eth0|]].
  - unfold connections, client_get. rewrite bind_run, send_run.
    fold (getRequest "/network/connections"). rewrite Hq.
    cbn [ok okResponse negb json]. rewrite !lift_bind.
    cbn [asArray mapM mbind result_bind].
    rewrite (fromApiConnection_eth0 Hp). reflexivity.
  - repeat split; vm_compute; reflexivity.
Qed.

End EndToEnd.

Lemma eth0_end_to_end_witness :
  ipPrefixFor (Utils := specUtils) (VStr "24") = Ok (VNum 24)
  /\ (connections (utils := specUtils) (client := eth0Client) emptyWorld).1
     = Ok (VArr [eth0Domain]).
Proof.
  split; [vm_compute; reflexivity|].
  apply (eth0_end_to_end (utils := specUtils) (client := eth0Client) emptyWorld);
    vm_compute; reflexivity.
Defined.

(** C3, as stated, fails: what the translation gives for the wire connection
    of the example carries no [type] at all. *)
Lemma eth0_translation_has_no_type :
  fromApiConnection (utils := specUtils) eth0Wire = Ok eth0Domain
  /\ ownProps eth0Domain !! "type" = None
  /\ getProp eth0Domain "type" = Ok VUndefined.
Proof. repeat split; vm_compute; reflexivity. Qed.


(** ** Routes *)

Section Routes.
Context {utils : Utils}.

Lemma split_nonempty (sep : ascii) (s : string) : Str.split sep s <> [].
Proof.
  destruct s as [|c s]; cbn; [done|].
  destruct (Ascii.eqb c sep); [done|]. by destruct (Str.split sep s).
Qed.

Lemma split_without_separator (sep : ascii) (s : string) :
  Str.contains sep s = false -> Str.split sep s = [s].
Proof.
  induction s as [|c s IH]; cbn; [done|].
  destruct (Ascii.eqb c sep); cbn; [done|].
  intros Hs. by rewrite (IH Hs).
Qed.

Lemma firstTwo_split (sep : ascii) (s : string) :
  exists ip netmask,
    firstTwo (Str.split sep s) = (VStr ip, netmask)
    /\ head (Str.split sep s) = Some ip.
Proof.
  pose proof (split_nonempty sep s) as Hne.
  destruct (Str.split sep s) as [|ip [|mask rest]]; [done| |]; by eexists _, _.
Qed.


Lemma object_address_prefix (ip prefix : value) :
  exists d, object [("address", ip); ("prefix", prefix)] = VObj d
            /\ d !! "address" = Some ip /\ d !! "prefix" = Some prefix.
Proof.
  eexists. split; [reflexivity|]. cbn [foldl fst snd].
  split; [by rewrite lookup_insert_ne, lookup_insert_eq
         |by rewrite lookup_insert_eq].
Qed.

Lemma mapM_Forall2 {A B} (f : A -> result B) (l : list A) (l' : list B) :
  mapM f l = Ok l' -> Forall2 (fun x y => f x = Ok y) l l'.
Proof.
  revert l'. induction l as [|x l IH]; intros l'; cbn.
  - intros [= <-]. constructor.
  - destruct (f x) as [y|e] eqn:Hx; cbn; [|done].
    destruct (mapM f l) as [k|e]; cbn; [|done].
    intros [= <-]. constructor; [done|by apply IH].
Qed.

(** What the two route functions return is always their argument with the
    destination replaced. *)
Lemma route4FromApi_frame (route route' : value) :
  route4FromApi route = Ok route' -> sameButDestination route route'.
Proof.
  unfold route4FromApi.
  destruct route as [| | | | | | |m]; try done. cbn [getProp mbind result_bind].
  destruct (m !! "destination") as [[| | | | |s| |]|] eqn:Hd; try done.
  cbn [default from_option id asString ownProps mbind result_bind]. 
  destruct (firstTwo_split "/" s) as (ip & netmask & -> & Hip).
  destruct (ipPrefixFor netmask) as [prefix|e]; cbn; [|done].
  intros [= <-].
  eexists m, _, _, s, ip. repeat split; try done.
  - apply lookup_insert_eq.
  - cbn. by rewrite lookup_insert_ne, lookup_insert_eq.
  - intros k Hk. by rewrite lookup_insert_ne.
Qed.

Lemma route6FromApi_frame (route route' : value) :
  route6FromApi route = Ok route' -> sameButDestination route route'.
Proof.
  unfold route6FromApi.
  destruct route as [| | | | | | |m]; try done. cbn [getProp mbind result_bind].
  destruct (m !! "destination") as [[| | | | |s| |]|] eqn:Hd; try done.
  cbn [default from_option id asString ownProps mbind result_bind].
  destruct (firstTwo_split "/" s) as (ip & netmask & -> & Hip).
  assert (Hcase :
    forall dest : result value,
      (forall d, dest = Ok d -> exists dm, d = VObj dm
                                 /\ dm !! "address" = Some (VStr ip)) ->
      (dest ≫= fun destination =>
         Ok (VObj (<["destination" := destination]> m))) = Ok route' ->
      sameButDestination (VObj m) route').
  { intros [d|e] Hdest; cbn; [|done]. intros [= <-].
    destruct (Hdest d eq_refl) as (dm & -> & Hdm).
    eexists m, _, dm, s, ip. repeat split; try done.
    - apply lookup_insert_eq.
    - intros k Hk. by rewrite lookup_insert_ne. }
  destruct netmask; (apply Hcase; clear Hcase);
    try (destruct (ipPrefixFor _) as [prefix|e]; cbn; [|done]);
    intros d [= <-]; eexists; (split; [reflexivity|]); cbn;
    first [by rewrite lookup_insert_eq
          |by rewrite lookup_insert_ne, lookup_insert_eq].
Qed.

(** They return whenever the destination is a string and the prefix helper
    returns for what follows the slash. *)
Lemma route4FromApi_returns (m : gmap string value) (s : string) (ip netmask prefix : value) :
  m !! "destination" = Some (VStr s) ->
  firstTwo (Str.split "/" s) = (ip, netmask) ->
  ipPrefixFor netmask = Ok prefix ->
  route4FromApi (VObj m)
  = Ok (VObj (<["destination" := object [("address", ip); ("prefix", prefix)]]> m)).
Proof.
  intros Hd Hs Hp. unfold route4FromApi. cbn [getProp mbind result_bind].
  rewrite Hd. cbn [default from_option id asString mbind result_bind]. rewrite Hs, Hp. reflexivity.
Qed.

Lemma fromApiDevice_routes (device d : value) :
  fromApiDevice device = Ok d ->
  exists l4 l4' l6 l6',
    wireRoutes "routes4" device = VArr l4
    /\ wireRoutes "routes6" device = VArr l6
    /\ mapM route4FromApi l4 = Ok l4'
    /\ mapM route6FromApi l6 = Ok l6'
    /\ getPropOpt d "routes4" = VArr l4'
    /\ getPropOpt d "routes6" = VArr l6'.
Proof.
  unfold fromApiDevice, wireRoutes.
  destruct (getProp device "ipConfig") as [ipc|e] eqn:Hipc; cbn; [|done].
  assert (Hopt : getPropOpt device "ipConfig" = ipc)
    by (destruct device; cbn in *; congruence).
  rewrite Hopt. clear Hopt Hipc.
  set (ipConfig := match ipc with VUndefined => VObj ∅ | _ => ipc end).
  assert (Hget : forall k v, getProp ipConfig k = Ok v -> getPropOpt ipc k = v).
  { intros k v. subst ipConfig. destruct ipc; cbn; try congruence.
    rewrite lookup_empty. cbn. congruence. }
  destruct (getProp ipConfig "routes4") as [r4|e] eqn:H4; cbn; [|done].
  destruct (asArray (orElse r4 (VArr []))) as [l4|e] eqn:Hl4; cbn; [|done].
  destruct (mapM route4FromApi l4) as [l4'|e] eqn:Hm4; cbn; [|done].
  destruct (getProp ipConfig "routes6") as [r6|e] eqn:H6; cbn; [|done].
  destruct (asArray (orElse r6 (VArr []))) as [l6|e] eqn:Hl6; cbn; [|done].
  destruct (mapM route6FromApi l6) as [l6'|e] eqn:Hm6; cbn; [|done].
  destruct (getProp ipConfig "addresses") as [a|e]; cbn; [|done].
  destruct (asArray (orElse a (VArr []))) as [la|e]; cbn; [|done].
  destruct (mapM addressFromApi la) as [la'|e]; cbn; [|done].
  intros [= <-]. exists l4, l4', l6, l6'.
  rewrite (Hget _ _ H4), (Hget _ _ H6).
  assert (Harr : forall v l, asArray v = Ok l -> v = VArr l)
    by (intros [] ?; cbn; congruence).
  rewrite (Harr _ _ Hl4), (Harr _ _ Hl6).
  repeat split; try done; cbn.
  - by rewrite lookup_insert_ne, lookup_insert_eq.
  - by rewrite lookup_insert_eq.
Qed.

(** C9.  In what [fromApiDevice] returns, the routes of both families are the
    wire routes, one for one and in the same order, each with its destination
    replaced by an address object and every other property (next hop, metric
    or any other) as it came. *)
Theorem routes_keep_other_fields (device d : value) (family : string) :
  fromApiDevice device = Ok d ->
  family = "routes4" \/ family = "routes6" ->
  exists l l',
    wireRoutes family device = VArr l
    /\ getPropOpt d family = VArr l'
    /\ Forall2 sameButDestination l l'.
Proof.
  intros Hd Hf.
  destruct (fromApiDevice_routes device d Hd)
    as (l4 & l4' & l6 & l6' & Hw4 & Hw6 & Hm4 & Hm6 & Hr4 & Hr6).
  destruct Hf as [-> | ->].
  - exists l4, l4'. repeat split; try done.
    eapply Forall2_impl; [by apply mapM_Forall2|].
    intros x y. apply route4FromApi_frame.
  - exists l6, l6'. repeat split; try done.
    eapply Forall2_impl; [by apply mapM_Forall2|].
    intros x y. apply route6FromApi_frame.
Qed.


End Routes.

Lemma routes_keep_other_fields_witness :
  fromApiDevice (utils := specUtils) eth0Device = Ok eth0DeviceDomain
  /\ exists l l',
       wireRoutes "routes4" eth0Device = VArr l
       /\ getPropOpt eth0DeviceDomain "routes4" = VArr l'
       /\ Forall2 sameButDestination l l'.
Proof.
  assert (Hd : fromApiDevice (utils := specUtils) eth0Device = Ok eth0DeviceDomain)
    by (vm_compute; reflexivity).
  split; [exact Hd|].
  exact (routes_keep_other_fields (utils := specUtils) eth0Device eth0DeviceDomain
           "routes4" Hd (or_introl eq_refl)).
Defined.

(** ** The address codec *)

Section Digits.

Lemma contains_app (c : ascii) (s t : string) :
  Str.contains c (s ++ t) = Str.contains c s || Str.contains c t.
Proof.
  induction s as [|a s IH]; simpl; [done|]. by rewrite IH, orb_assoc.
Qed.

(** Decimal numbers are written with digits only. *)
Lemma digits_only (c : ascii) (d : uint) :
  (nat_of_ascii c < 48)%nat ->
  Str.contains c (NilEmpty.string_of_uint d) = false.
Proof.
  intros Hc. induction d as [|d IH|d IH|d IH|d IH|d IH|d IH|d IH|d IH|d IH|d IH];
    cbn [NilEmpty.string_of_uint Str.contains]; [done|..];
    rewrite IH, orb_false_r; apply Ascii.eqb_neq; intros <-;
    vm_compute in Hc; lia.
Qed.

Lemma digits_only_nilzero (c : ascii) (d : uint) :
  (nat_of_ascii c < 48)%nat ->
  Str.contains c (NilZero.string_of_uint d) = false.
Proof.
  intros Hc. destruct d; try by apply digits_only.
  cbn [NilZero.string_of_uint Str.contains].
  rewrite orb_false_r. apply Ascii.eqb_neq. intros <-.
  vm_compute in Hc. lia.
Qed.

Lemma number_has_no (c : ascii) (s : string) (n : N) :
  (nat_of_ascii c < 48)%nat -> Str.toN s = Some n -> Str.contains c s = false.
Proof.
  unfold Str.toN. intros Hc.
  destruct (NilZero.uint_of_string s) as [u|] eqn:Hu; [|done]. intros _.
  rewrite <- (NilZero.sus s u Hu). by apply digits_only_nilzero.
Qed.

Lemma ofZ_ofN (n : N) : Str.ofZ (Z.of_N n) = Str.ofN n.
Proof. by destruct n. Qed.

Lemma to_uint_not_nil (n : N) : N.to_uint n <> Nil.
Proof.
  destruct n as [|p]; cbn; [done|].
  apply DecimalPos.Unsigned.to_uint_nonnil.
Qed.

(** Reading what was printed gives the number back. *)
Lemma toN_ofN (n : N) : Str.toN (Str.ofN n) = Some n.
Proof.
  unfold Str.toN, Str.ofN.
  rewrite NilZero.usu by apply to_uint_not_nil.
  cbn. by rewrite DecimalN.Unsigned.of_to.
Qed.

(** Printing what was read gives the digits back when they had no leading
    zeros. *)
Lemma ofN_toN (s : string) (u : uint) :
  NilZero.uint_of_string s = Some u -> unorm u = u ->
  Str.ofN (N.of_uint u) = s.
Proof.
  intros Hu Hn. unfold Str.ofN.
  rewrite DecimalN.Unsigned.to_of, Hn. by apply NilZero.sus.
Qed.

End Digits.

Section Splitting.

Lemma split_app (sep : ascii) (a r : string) :
  Str.contains sep a = false ->
  Str.split sep (a ++ String sep r) = a :: Str.split sep r.
Proof.
  induction a as [|c a IH]; simpl.
  - intros _. by rewrite Ascii.eqb_refl.
  - destruct (Ascii.eqb c sep); simpl; [done|].
    intros Ha. by rewrite (IH Ha).
Qed.

Lemma split_single (sep : ascii) (s d : string) :
  Str.split sep s = [d] -> s = d.
Proof.
  revert d. induction s as [|c s IH]; intros d; simpl.
  - by intros [= <-].
  - destruct (Ascii.eqb c sep).
    + intros [= _ Hs]. by destruct (split_nonempty sep s).
    + destruct (Str.split sep s) as [|h t] eqn:Hs;
        [by destruct (split_nonempty sep s)|].
      intros [= <- ->]. by rewrite (IH h).
Qed.

Lemma split_pair (sep : ascii) (s a d : string) :
  Str.split sep s = [a; d] -> s = a ++ String sep d.
Proof.
  revert a. induction s as [|c s IH]; intros a; simpl; [done|].
  destruct (Ascii.eqb_spec c sep) as [->|Hc].
  - intros [= <- Hs]. by rewrite (split_single _ _ _ Hs).
  - destruct (Str.split sep s) as [|h t] eqn:Hs; [done|].
    intros [= <- ->]. by rewrite (IH h).
Qed.

End Splitting.

Section Masks.

Lemma leadingOnes_le (w : nat) (m : Z) : (SpecUtils.leadingOnes w m <= w)%nat.
Proof.
  induction w as [|w IH]; cbn; [done|].
  destruct (Z.testbit m (Z.of_nat w)); lia.
Qed.

(** The bits that [leadingOnes] counted are set. *)
Lemma leadingOnes_set (w : nat) (m : Z) (j : nat) :
  (w - SpecUtils.leadingOnes w m <= j < w)%nat ->
  Z.testbit m (Z.of_nat j) = true.
Proof.
  induction w as [|w IH]; cbn; [lia|].
  destruct (Z.testbit m (Z.of_nat w)) eqn:Hw; [|lia].
  intros Hj. destruct (decide (j = w)) as [->|Hne]; [done|].
  apply IH. pose proof (leadingOnes_le w m). lia.
Qed.

(** A mask that has a prefix length has no one-bit below a zero-bit. *)
Lemma prefixOfMask_contiguous (m k : Z) :
  SpecUtils.prefixOfMask m = Some k -> ~ nonContiguous m.
Proof.
  unfold SpecUtils.prefixOfMask.
  set (n := SpecUtils.leadingOnes 32 m).
  pose proof (leadingOnes_le 32 m) as Hn. fold n in Hn.
  destruct (Z.eqb_spec (Z.land m (Z.ones (32 - Z.of_nat n))) 0) as [Hlow|];
    [|done].
  intros _ (i & j & Hij & Hj & Hi & Hj0).
  destruct (Z.lt_ge_cases i (32 - Z.of_nat n)) as [Hlt|Hge].
  - apply (f_equal (fun z => Z.testbit z i)) in Hlow.
    rewrite Z.land_spec, Hi, Z.ones_spec_low, Z.bits_0 in Hlow by lia.
    done.
  - assert (Hset : Z.testbit m (Z.of_nat (Z.to_nat j)) = true).
    { apply (leadingOnes_set 32). fold n. lia. }
    rewrite Z2Nat.id in Hset by lia. congruence.
Qed.

(** A dotted mask is not a number. *)
Lemma parseNetmask_not_number (s : string) (m : Z) :
  SpecUtils.parseNetmask s = Some m -> Str.toN s = None.
Proof.
  intros Hm. destruct (Str.toN s) as [n|] eqn:Hn; [|done]. exfalso.
  assert (Hdot : Str.contains "." s = false).
  { apply (number_has_no _ _ n); [vm_compute; lia|done]. }
  unfold SpecUtils.parseNetmask in Hm.
  by rewrite (split_without_separator _ _ Hdot) in Hm.
Qed.

Lemma ipPrefixFor_noncontiguous (mask : string) (m : Z) :
  SpecUtils.parseNetmask mask = Some m -> nonContiguous m ->
  SpecUtils.ipPrefixFor (VStr mask) = Throw (MalformedInput mask).
Proof.
  intros Hm Hnc. unfold SpecUtils.ipPrefixFor.
  rewrite (parseNetmask_not_number _ _ Hm), Hm.
  destruct (SpecUtils.prefixOfMask m) as [k|] eqn:Hk; [|done].
  by destruct (prefixOfMask_contiguous _ _ Hk).
Qed.

(** C8.  An address whose part after the slash is a dotted mask with a
    one-bit below a zero-bit is not parsed: the codec throws, and so does
    the translation of a connection that lists it first. *)
Theorem noncontiguous_netmask_rejected
    (address ip mask : string) (rest : list string) (m : Z) :
  Str.split "/" address = ip :: mask :: rest ->
  SpecUtils.parseNetmask mask = Some m ->
  nonContiguous m ->
  parse (VStr address) = Throw (MalformedInput mask)
  /\ (forall (connection : gmap string value) (others : list value),
        connection !! "addresses" = Some (VArr (VStr address :: others)) ->
        fromApiConnection (utils := specUtils) (VObj connection)
        = Throw (MalformedInput mask)).
Proof.
  intros Hs Hm Hnc.
  assert (Hp : parse (VStr address) = Throw (MalformedInput mask)).
  { unfold parse, addressFromApi. cbn [asString mbind result_bind].
    rewrite Hs. cbn [firstTwo ipPrefixFor specUtils].
    by rewrite (ipPrefixFor_noncontiguous _ _ Hm Hnc). }
  split; [exact Hp|].
  intros connection others Ha. unfold fromApiConnection.
  cbn [getProp mbind result_bind]. rewrite Ha.
  cbn [default from_option id orElse truthy asArray mbind result_bind mapM].
  fold (parse (VStr address)). by rewrite Hp.
Qed.

End Masks.

Lemma noncontiguous_netmask_rejected_witness :
  Str.split "/" "10.0.0.0/255.0.255.0" = ["10.0.0.0"; "255.0.255.0"]
  /\ SpecUtils.parseNetmask "255.0.255.0" = Some 4278255360
  /\ nonContiguous 4278255360
  /\ parse (VStr "10.0.0.0/255.0.255.0") = Throw (MalformedInput "255.0.255.0").
Proof.
  assert (Hnc : nonContiguous 4278255360).
  { exists 8, 16. repeat split; try lia; vm_compute; reflexivity. }
  split; [vm_compute; reflexivity|]. split; [vm_compute; reflexivity|].
  split; [exact Hnc|].
  exact (proj1 (noncontiguous_netmask_rejected "10.0.0.0/255.0.255.0"
                  "10.0.0.0" "255.0.255.0" [] 4278255360 eq_refl eq_refl Hnc)).
Defined.

Section Codec.

Lemma format_address_prefix (a : string) (p : Z) :
  format (object [("address", VStr a); ("prefix", VNum p)])
  = Ok (VStr (a ++ "/" ++ Str.ofZ p)).
Proof.
  destruct (object_address_prefix (VStr a) (VNum p)) as (d & -> & Ha & Hp).
  unfold format, SpecUtils.formatIp. cbn [getProp mbind result_bind].
  by rewrite Ha, Hp.
Qed.

Lemma ipPrefixFor_number (s : string) (n : N) :
  Str.toN s = Some n -> (n <= 128)%N ->
  SpecUtils.ipPrefixFor (VStr s) = Ok (VNum (Z.of_N n)).
Proof.
  intros Hs Hn. unfold SpecUtils.ipPrefixFor. rewrite Hs.
  by destruct (N.leb_spec n 128); [|lia].
Qed.

(** Parsing splits at the first slash and reads what follows as a prefix. *)
Lemma parse_address_prefix (a rest : string) (prefix : value) :
  Str.contains "/" a = false ->
  Str.contains "/" rest = false ->
  SpecUtils.ipPrefixFor (VStr rest) = Ok prefix ->
  parse (VStr (a ++ "/" ++ rest))
  = Ok (object [("address", VStr a); ("prefix", prefix)]).
Proof.
  intros Ha Hrest Hp. unfold parse, addressFromApi.
  cbn [asString mbind result_bind].
  change (a ++ "/" ++ rest) with (a ++ String "/" rest).
  rewrite (split_app _ _ _ Ha), (split_without_separator _ _ Hrest).
  cbn [firstTwo ipPrefixFor specUtils]. by rewrite Hp.
Qed.

(** Every mask of 0 to 32 leading one-bits is read back as its length. *)
Lemma netmask_of_prefix (k : Z) :
  0 <= k <= 32 ->
  SpecUtils.ipPrefixFor (VStr (netmaskOfPrefix k)) = Ok (VNum k)
  /\ Str.contains "/" (netmaskOfPrefix k) = false.
Proof.
  intros Hk.
  assert (Hall : Forall (fun n : nat =>
            SpecUtils.ipPrefixFor (VStr (netmaskOfPrefix (Z.of_nat n)))
            = Ok (VNum (Z.of_nat n))
            /\ Str.contains "/" (netmaskOfPrefix (Z.of_nat n)) = false)
          (seq 0 33)).
  { repeat (apply Forall_cons; split; [split; vm_compute; reflexivity|]).
    constructor. }
  rewrite Forall_forall in Hall.
  specialize (Hall (Z.to_nat k)). rewrite Z2Nat.id in Hall by lia.
  apply Hall, elem_of_seq. lia.
Qed.

(** C7.  For an address without a slash and a prefix from 0 to 128, format
    gives address/prefix and parse gives the pair back, so formatting,
    parsing and formatting again changes nothing; format after parse
    reproduces every well-formed string in integer-prefix notation; and an
    address with the dotted mask of a prefix up to 32 parses to the pair
    with that prefix and is formatted in integer-prefix notation. *)
Theorem codec_round_trip (a : string) (p : Z) :
  Str.contains "/" a = false ->
  0 <= p <= 128 ->
  let x := object [("address", VStr a); ("prefix", VNum p)] in
  format x = Ok (VStr (a ++ "/" ++ Str.ofZ p))
  /\ parse (VStr (a ++ "/" ++ Str.ofZ p)) = Ok x
  /\ (s ← format x; y ← parse s; format y) = format x
  /\ (forall s, isCidr s = true -> (y ← parse (VStr s); format y) = Ok (VStr s))
  /\ (p <= 32 ->
      parse (VStr (a ++ "/" ++ netmaskOfPrefix p)) = Ok x
      /\ (y ← parse (VStr (a ++ "/" ++ netmaskOfPrefix p)); format y)
         = Ok (VStr (a ++ "/" ++ Str.ofZ p))).
Proof.
  intros Ha Hp x.
  assert (Hprint : Str.ofZ p = Str.ofN (Z.to_N p))
    by (rewrite <- ofZ_ofN; f_equal; lia).
  assert (Hformat : format x = Ok (VStr (a ++ "/" ++ Str.ofZ p)))
    by apply format_address_prefix.
  assert (Hparse : parse (VStr (a ++ "/" ++ Str.ofZ p)) = Ok x).
  { apply parse_address_prefix; [done| |].
    - apply (number_has_no _ _ (Z.to_N p)); [vm_compute; lia|].
      rewrite Hprint. apply toN_ofN.
    - rewrite Hprint, (ipPrefixFor_number _ (Z.to_N p)); [|apply toN_ofN|lia].
      by rewrite Z2N.id by lia. }
  split; [exact Hformat|]. split; [exact Hparse|].
  split; [|split].
  - rewrite Hformat. cbn [mbind result_bind]. rewrite Hparse.
    cbn [mbind result_bind]. exact Hformat.
  - intros s. unfold isCidr.
    destruct (Str.split "/" s) as [|a' [|d [|]]] eqn:Hs; try done.
    destruct (NilZero.uint_of_string d) as [u|] eqn:Hu; [|done].
    destruct (Decimal.uint_eq_dec (unorm u) u) as [Hnorm|]; [|done].
    cbn [andb]. intros Hle%N.leb_le.
    assert (HtoN : Str.toN d = Some (N.of_uint u)) by (unfold Str.toN; by rewrite Hu).
    rewrite (split_pair _ _ _ _ Hs).
    change (a' ++ String "/" d) with (a' ++ "/" ++ d).
    unfold parse, addressFromApi. cbn [asString mbind result_bind].
    change (a' ++ "/" ++ d) with (a' ++ String "/" d) at 1.
    rewrite <- (split_pair _ _ _ _ Hs), Hs.
    cbn [firstTwo ipPrefixFor specUtils].
    rewrite (ipPrefixFor_number _ _ HtoN Hle). cbn [mbind result_bind].
    rewrite format_address_prefix, ofZ_ofN. by rewrite (ofN_toN _ _ Hu Hnorm).
  - intros Hp32. destruct (netmask_of_prefix p) as [Hmask Hslash]; [lia|].
    assert (Hq : parse (VStr (a ++ "/" ++ netmaskOfPrefix p)) = Ok x)
      by (by apply parse_address_prefix).
    split; [exact Hq|]. rewrite Hq. cbn [mbind result_bind]. exact Hformat.
Qed.

End Codec.

Lemma codec_round_trip_witness :
  Str.contains "/" "192.168.1.10" = false
  /\ 0 <= 24 <= 128
  /\ format (object [("address", VStr "192.168.1.10"); ("prefix", VNum 24)])
     = Ok (VStr "192.168.1.10/24")
  /\ parse (VStr "192.168.1.10/24")
     = Ok (object [("address", VStr "192.168.1.10"); ("prefix", VNum 24)])
  /\ parse (VStr "192.168.1.10/255.255.255.0")
     = Ok (object [("address", VStr "192.168.1.10"); ("prefix", VNum 24)]).
Proof.
  destruct (codec_round_trip "192.168.1.10" 24 eq_refl ltac:(lia))
    as (Hf & Hp & _ & _ & Hm).
  split; [reflexivity|]. split; [lia|]. split; [exact Hf|]. split; [exact Hp|].
  exact (proj1 (Hm ltac:(lia))).
Defined.

(** ** Worked examples *)

Example split_keeps_empty_parts :
  Str.split "/" "a/b/" = ["a"; "b"; ""] /\ Str.split "/" "" = [""].
Proof. split; reflexivity. Qed.

Example trim_both_ends : Str.trim "  10.0.0.1 " = "10.0.0.1".
Proof. reflexivity. Qed.

Example blank_gateway_is_dropped :
  toApiConnection (utils := specUtils)
    (object [("id", VStr "eth0"); ("iface", VStr "eth0");
             ("gateway4", VStr "  "); ("gateway6", VStr "fe80::1")])
  = Ok (object [("id", VStr "eth0"); ("interface", VStr "eth0");
                ("addresses", VArr []); ("gateway6", VStr "fe80::1")]).
Proof. vm_compute. reflexivity. Qed.

Example device_translation :
  fromApiDevice (utils := specUtils) eth0Device = Ok eth0DeviceDomain.
Proof. vm_compute. reflexivity. Qed.

(** With the codec of section 4.1, which refuses what is not a prefix, the
    IPv4 route without a prefix is not translated at all. *)
Example host_route_refused :
  route4FromApi (utils := specUtils) (VObj hostRoute)
  = Throw (MalformedInput "undefined").
Proof. vm_compute. reflexivity. Qed.

Example netmask_equivalence :
  parse (VStr "10.0.0.0/255.255.255.0") = parse (VStr "10.0.0.0/24")
  /\ parse (VStr "10.0.0.0/24")
     = Ok (object [("address", VStr "10.0.0.0"); ("prefix", VNum 24)]).
Proof. split; vm_compute; reflexivity. Qed.

Example getConnection_finds_eth0 :
  (getConnection (utils := specUtils) (client := eth0Client)
     (VStr "eth0") emptyWorld).1 = Ok eth0Domain
  /\ (getConnection (utils := specUtils) (client := eth0Client)
        (VStr "wlan0") emptyWorld).1 = Ok VUndefined.
Proof. split; vm_compute; reflexivity. Qed.

(** The same through [fromApiDevice], with a prefix helper that answers
    [NaN] for [undefined]: the IPv4 destination gets a [prefix] property,
    the IPv6 one does not. *)
Example host_routes_of_a_device :
  fromApiDevice (utils := parseIntUtils)
    (object [("name", VStr "eth0");
             ("ipConfig", object [("routes4", VArr [VObj hostRoute]);
                                  ("routes6", VArr [route6Wire])])])
  = Ok (object
          [("name", VStr "eth0"); ("addresses", VArr []); ("nameservers", VArr []);
           ("routes4",
            VArr [object [("destination",
                           object [("address", VStr "10.0.0.1"); ("prefix", VNaN)]);
                          ("metric", VNum 50)]]);
           ("routes6",
            VArr [object [("destination", object [("address", VStr "fe80::")]);
                          ("metric", VNum 256); ("proto", VStr "kernel")]])]).
Proof. vm_compute. reflexivity. Qed.

(** * Further properties of the client *)

(** ** Addresses and connections from the wire *)

Section WireTranslation.
Context {utils : Utils}.

Lemma split_with_separator (sep : ascii) (s : string) :
  Str.contains sep s = true ->
  exists a b rest, Str.split sep s = a :: b :: rest.
Proof.
  induction s as [|c s IH]; simpl; [done|].
  destruct (Ascii.eqb c sep); simpl.
  - intros _. pose proof (split_nonempty sep s) as Hne.
    destruct (Str.split sep s) as [|b rest]; [done|]. by eexists _, _, _.
  - intros Hs. destruct (IH Hs) as (a & b & rest & ->). by eexists _, _, _.
Qed.

(** An address without a slash becomes [{address}] whatever the prefix
    helper is; with a slash, what follows it goes to the helper, and what
    follows a second slash is dropped; anything but a string throws. *)
Theorem addressFromApi_parts (a b rest : string) :
  Str.contains "/" a = false ->
  Str.contains "/" b = false ->
  addressFromApi (VStr a) = Ok (object [("address", VStr a)])
  /\ addressFromApi (VStr (a ++ "/" ++ b))
     = (prefix ← ipPrefixFor (VStr b);
        Ok (object [("address", VStr a); ("prefix", prefix)]))
  /\ addressFromApi (VStr (a ++ "/" ++ b ++ "/" ++ rest))
     = addressFromApi (VStr (a ++ "/" ++ b))
  /\ (forall v, asString v = Throw TypeError ->
        addressFromApi v = Throw TypeError).
Proof.
  intros Ha Hb. unfold addressFromApi. cbn [asString mbind result_bind].
  change (a ++ "/" ++ b ++ "/" ++ rest)
    with (a ++ String "/" (b ++ String "/" rest)).
  change (a ++ "/" ++ b) with (a ++ String "/" b).
  rewrite !(split_app _ _ _ Ha), (split_app _ _ _ Hb),
    !(split_without_separator _ _ Hb), (split_without_separator _ _ Ha).
  repeat split. by intros v ->.
Qed.

(** What [fromApiConnection] returns is the wire connection with its
    addresses translated one by one, in order, its nameservers kept (or the
    empty list where it had none), and every other property as it came. *)
Theorem fromApiConnection_keeps_fields (m : gmap string value) (r : value) :
  fromApiConnection (VObj m) = Ok r ->
  exists (m' : gmap string value) (la' : list value),
    r = VObj m'
    /\ m' !! "addresses" = Some (VArr la')
    /\ Forall2 (fun x y => addressFromApi x = Ok y) (addressesOf (VObj m)) la'
    /\ m' !! "nameservers"
       = Some (orElse (default VUndefined (m !! "nameservers")) (VArr []))
    /\ forall k, k <> "addresses" -> k <> "nameservers" -> m' !! k = m !! k.
Proof.
  unfold fromApiConnection, addressesOf.
  cbn [getProp getPropOpt mbind result_bind ownProps].
  destruct (asArray (orElse (default VUndefined (m !! "addresses")) (VArr [])))
    as [la|e] eqn:Hla; cbn [mbind result_bind]; [|done].
  destruct (mapM addressFromApi la) as [la'|e] eqn:Hm; cbn [mbind result_bind];
    [|done].
  intros [= <-]. eexists _, la'. split; [reflexivity|].
  split; [by rewrite lookup_insert_ne, lookup_insert_eq by done|].
  split.
  - apply mapM_Forall2 in Hm. revert Hla. unfold orElse.
    destruct (default VUndefined (m !! "addresses")) as [| |[]|n| |s|l|o];
      cbn; try (intros [= <-]; exact Hm); try done.
    + destruct (n =? 0); cbn; [by intros [= <-]|done].
    + destruct (String.eqb s ""); cbn; [by intros [= <-]|done].
  - split; [by rewrite lookup_insert_eq|].
    intros k Ha Hn. by rewrite !lookup_insert_ne by done.
Qed.

(** A wire connection without addresses and nameservers gets two empty
    lists and nothing else changes; the prefix helper is not consulted. *)
Theorem fromApiConnection_defaults (m : gmap string value) :
  m !! "addresses" = None ->
  m !! "nameservers" = None ->
  fromApiConnection (VObj m)
  = Ok (VObj (<["nameservers" := VArr []]> (<["addresses" := VArr []]> m))).
Proof.
  intros Ha Hn. unfold fromApiConnection.
  cbn [getProp mbind result_bind]. by rewrite Ha, Hn.
Qed.

(** On a destination that has a slash the two route functions agree: the
    families differ only in how they treat a destination without one. *)
Theorem route6_as_route4_with_slash (m : gmap string value) (s : string) :
  m !! "destination" = Some (VStr s) ->
  Str.contains "/" s = true ->
  route6FromApi (VObj m) = route4FromApi (VObj m).
Proof.
  intros Hd Hs. unfold route6FromApi, route4FromApi.
  cbn [getProp mbind result_bind]. rewrite Hd.
  cbn [default from_option id asString mbind result_bind].
  destruct (split_with_separator _ _ Hs) as (a & b & rest & ->).
  cbn [firstTwo]. by destruct (ipPrefixFor (VStr b)).
Qed.

(** [fromApiDevice] lifts the properties of the [ipConfig] object to the
    device, where they win over the device's own; [ipConfig] itself is gone,
    unless it has an [ipConfig] of its own; the three translated lists and
    the nameservers are always there. *)
Theorem fromApiDevice_flattens_ipConfig
    (m ipc : gmap string value) (d : value) :
  m !! "ipConfig" = Some (VObj ipc) ->
  fromApiDevice (VObj m) = Ok d ->
  exists (m' : gmap string value) (l4 l6 la : list value),
    d = VObj m'
    /\ m' !! "routes4" = Some (VArr l4)
    /\ m' !! "routes6" = Some (VArr l6)
    /\ m' !! "addresses" = Some (VArr la)
    /\ m' !! "nameservers"
       = Some (orElse (default VUndefined (ipc !! "nameservers")) (VArr []))
    /\ forall k,
         k <> "routes4" -> k <> "routes6" -> k <> "addresses" ->
         k <> "nameservers" ->
         m' !! k
         = match ipc !! k with
           | Some v => Some v
           | None => if decide (k = "ipConfig") then None else m !! k
           end.
Proof.
  intros Hipc. unfold fromApiDevice.
  cbn [getProp getPropOpt mbind result_bind ownProps]. rewrite Hipc.
  cbn [default from_option id getProp getPropOpt mbind result_bind ownProps].
  destruct (asArray (orElse (default VUndefined (ipc !! "routes4")) (VArr [])))
    as [w4|e]; cbn [mbind result_bind]; [|done].
  destruct (mapM route4FromApi w4) as [l4|e]; cbn [mbind result_bind]; [|done].
  destruct (asArray (orElse (default VUndefined (ipc !! "routes6")) (VArr [])))
    as [w6|e]; cbn [mbind result_bind]; [|done].
  destruct (mapM route6FromApi w6) as [l6|e]; cbn [mbind result_bind]; [|done].
  destruct (asArray (orElse (default VUndefined (ipc !! "addresses")) (VArr [])))
    as [wa|e]; cbn [mbind result_bind]; [|done].
  destruct (mapM addressFromApi wa) as [la|e]; cbn [mbind result_bind]; [|done].
  intros [= <-]. eexists _, l4, l6, la. split; [reflexivity|].
  split; [by rewrite lookup_insert_ne, lookup_insert_eq by done|].
  split; [by rewrite lookup_insert_eq|].
  split; [by rewrite !lookup_insert_ne, lookup_insert_eq by done|].
  split; [by rewrite !lookup_insert_ne, lookup_insert_eq by done|].
  intros k H4 H6 Ha Hn. rewrite !lookup_insert_ne by done.
  rewrite lookup_union, lookup_delete.
  destruct (ipc !! k); [by destruct (decide _); [|destruct (m !! k)]|].
  destruct (decide ("ipConfig" = k)) as [<-|Hk]; [done|].
  destruct (decide (k = "ipConfig")) as [->|]; [done|]. by destruct (m !! k).
Qed.

(** A device without [ipConfig] gets the four empty lists and keeps all it
    had; the prefix helper is not consulted. *)
Theorem fromApiDevice_without_ipConfig (m : gmap string value) :
  m !! "ipConfig" = None ->
  fromApiDevice (VObj m)
  = Ok (VObj (<["routes6" := VArr []]> (<["routes4" := VArr []]>
             (<["nameservers" := VArr []]> (<["addresses" := VArr []]> m))))).
Proof.
  intros Hi. unfold fromApiDevice.
  cbn [getProp getPropOpt mbind result_bind ownProps]. rewrite Hi.
  cbn. rewrite lookup_empty. cbn.
  by rewrite (left_id_L ∅ (∪)), (delete_id _ _ Hi).
Qed.

End WireTranslation.

(** ** Connections to the wire *)

Section Blanks.

Lemma isBlank_trimStart (s : string) : isBlank (Str.trimStart s) = isBlank s.
Proof.
  induction s as [|c s IH]; cbn; [done|].
  destruct (Str.isSpace c) eqn:Hc; cbn; [done|]. by rewrite Hc.
Qed.

Lemma trimStart_empty (s : string) :
  Str.trimStart s = "" <-> isBlank s = true.
Proof.
  split.
  - intros Hs. by rewrite <- isBlank_trimStart, Hs.
  - induction s as [|c s IH]; cbn; [done|].
    destruct (Str.isSpace c); cbn; [exact IH|done].
Qed.

Lemma isBlank_rev (s acc : string) :
  isBlank (Str.rev_string s acc) = isBlank s && isBlank acc.
Proof.
  revert acc. induction s as [|c s IH]; intros acc; cbn; [done|].
  rewrite IH. cbn. by destruct (Str.isSpace c), (isBlank s), (isBlank acc).
Qed.

Lemma rev_string_empty (s acc : string) :
  Str.rev_string s acc = "" -> s = "" /\ acc = "".
Proof.
  revert acc. induction s as [|c s IH]; intros acc; cbn; [done|].
  intros Hr. by destruct (IH _ Hr).
Qed.

(** [s.trim() === ""] exactly for the strings of blanks. *)
Lemma trim_empty (s : string) : String.eqb (Str.trim s) "" = isBlank s.
Proof.
  unfold Str.trim. destruct (isBlank s) eqn:Hs.
  - apply trimStart_empty in Hs. by rewrite Hs.
  - apply String.eqb_neq. intros [Ht _]%rev_string_empty.
    apply trimStart_empty in Ht.
    by rewrite isBlank_rev, isBlank_trimStart, Hs in Ht.
Qed.

End Blanks.

Section ToWire.
Context {utils : Utils}.

(** The list that [(v || []).map(...)] walks, when it does not throw. *)
Lemma asArray_orElse (v : value) (l : list value) :
  asArray (orElse v (VArr [])) = Ok l ->
  match v with VArr l' => l' | _ => [] end = l.
Proof.
  unfold orElse. destruct v as [| |[]|n| |s|l'|o]; cbn; try congruence.
  - destruct (n =? 0); cbn; congruence.
  - destruct (String.eqb s ""); cbn; congruence.
Qed.

(** What [setGateway] leaves under the gateway's name, and that it touches
    nothing else. *)
Lemma setGateway_lookup (k : string) (gateway : value)
    (conn conn' : gmap string value) :
  conn !! k = None ->
  setGateway k gateway conn = Ok conn' ->
  (forall j, j <> k -> conn' !! j = conn !! j)
  /\ match gateway with
     | VUndefined | VNull => conn' !! k = Some gateway
     | VStr s => conn' !! k = if isBlank s then None else Some gateway
     | _ => False
     end.
Proof.
  intros Hk. unfold setGateway.
  destruct gateway as [| | | | |s| |]; try done;
    try (intros [= <-]; split;
         [by intros j Hj; rewrite lookup_insert_ne by done|by rewrite lookup_insert_eq]).
  rewrite trim_empty. destruct (isBlank s); intros [= <-].
  - by split.
  - split; [by intros j Hj; rewrite lookup_insert_ne by done|by rewrite lookup_insert_eq].
Qed.

(** What [toApiConnection] returns has [interface] in the place of [iface],
    the addresses formatted one by one, in order, and every property other
    than those and the gateways as it was. *)
Theorem toApiConnection_renames_iface (m : gmap string value) (r : value) :
  toApiConnection (VObj m) = Ok r ->
  exists (m' : gmap string value) (la' : list value),
    r = VObj m'
    /\ m' !! "iface" = None
    /\ m' !! "interface" = Some (default VUndefined (m !! "iface"))
    /\ m' !! "addresses" = Some (VArr la')
    /\ Forall2 (fun x y => formatIp x = Ok y) (addressesOf (VObj m)) la'
    /\ forall k, k <> "iface" -> k <> "interface" -> k <> "addresses" ->
                 k <> "gateway4" -> k <> "gateway6" -> m' !! k = m !! k.
Proof.
  unfold toApiConnection, addressesOf.
  cbn [getProp getPropOpt mbind result_bind ownProps].
  destruct (asArray _) as [la|e] eqn:Hla; cbn [mbind result_bind]; [|done].
  apply asArray_orElse in Hla.
  destruct (mapM formatIp la) as [la'|e] eqn:Hm; cbn [mbind result_bind]; [|done].
  apply mapM_Forall2 in Hm.
  destruct (setGateway "gateway4" _ _) as [c4|e] eqn:H4; cbn [mbind result_bind];
    [|done].
  destruct (setGateway "gateway6" _ _) as [c6|e] eqn:H6; cbn [mbind result_bind];
    [|done].
  apply setGateway_lookup in H4 as [H4 _];
    [|by rewrite lookup_delete_ne, lookup_delete_eq by done].
  apply setGateway_lookup in H6 as [H6 _];
    [|by rewrite H4, lookup_delete_eq by done].
  intros [= <-]. eexists _, la'. split; [reflexivity|].
  split.
  { rewrite !lookup_insert_ne, H6, H4 by done.
    by rewrite !lookup_delete_ne, lookup_delete_eq by done. }
  split; [by rewrite lookup_insert_eq|].
  split; [by rewrite lookup_insert_ne, lookup_insert_eq by done|].
  split; [by rewrite Hla|].
  intros k Hi Hn Ha Hg4 Hg6.
  rewrite !lookup_insert_ne, H6, H4 by done. by rewrite !lookup_delete_ne by done.
Qed.

(** The gateways of what [toApiConnection] returns: a gateway that was not
    there, or was [null], is sent as it is; a string of ASCII text is sent
    unless it is blank, and then not at all; with a gateway that is neither
    there is no result. *)
Theorem toApiConnection_gateways (m m' : gmap string value) (k : string) :
  k = "gateway4" \/ k = "gateway6" ->
  toApiConnection (VObj m) = Ok (VObj m') ->
  match default VUndefined (m !! k) with
  | VUndefined | VNull => m' !! k = Some (default VUndefined (m !! k))
  | VStr s =>
      isAsciiText s = true ->
      m' !! k = if isBlank s then None else Some (VStr s)
  | _ => False
  end.
Proof.
  intros Hk. unfold toApiConnection.
  cbn [getProp getPropOpt mbind result_bind ownProps].
  destruct (asArray _) as [la|e]; cbn [mbind result_bind]; [|done].
  destruct (mapM formatIp la) as [la'|e]; cbn [mbind result_bind]; [|done].
  destruct (setGateway "gateway4" _ _) as [c4|e] eqn:H4; cbn [mbind result_bind];
    [|done].
  destruct (setGateway "gateway6" _ _) as [c6|e] eqn:H6; cbn [mbind result_bind];
    [|done].
  apply setGateway_lookup in H4 as [H4 G4];
    [|by rewrite lookup_delete_ne, lookup_delete_eq by done].
  apply setGateway_lookup in H6 as [H6 G6];
    [|by rewrite H4, lookup_delete_eq by done].
  intros [= <-]. rewrite !lookup_insert_ne by (by destruct Hk as [-> | ->]).
  destruct Hk as [-> | ->].
  - rewrite H6 by done.
    by destruct (default VUndefined (m !! "gateway4")).
  - by destruct (default VUndefined (m !! "gateway6")).
Qed.

End ToWire.

(** ** What the methods send and log *)

Section Traffic.
Context {utils : Utils} {model : Model} {nm : NetworkManager}
        {client : HTTPClient}.

Lemma lift_sent {A} (r : result A) (w : World) : (lift r w).2 = w.
Proof. reflexivity. Qed.

(** What comes after the response of a read never sends anything. *)
Lemma read_sent {A} (path : string) (k : Response -> Async A) (w : World) :
  (forall r w', sent (k r w').2 = sent w') ->
  sent ((client_get path ≫= k) w).2 = (sent w ++ [getRequest path])%list.
Proof.
  intros Hk. rewrite bind_run. unfold client_get. rewrite send_run.
  destruct (respond (sent w) _) as [r|e]; [by rewrite Hk|done].
Qed.

Lemma connections_sent (w : World) :
  sent (connections w).2 = (sent w ++ [getRequest "/network/connections"])%list.
Proof.
  unfold connections. apply read_sent. intros r w'.
  destruct (ok r); cbn; [|done].
  rewrite lift_bind. destruct (json r); [|done].
  rewrite lift_bind. by destruct (asArray _).
Qed.

(** Every read sends its one GET and nothing else, whatever the backend
    answers: [devices], [connections], [accessPoints], [settings],
    [getConnection] and [addresses] never write. *)
Theorem reads_send_one_get (id : value) (w : World) :
  sent (devices w).2 = (sent w ++ [getRequest "/network/devices"])%list
  /\ sent (connections w).2
     = (sent w ++ [getRequest "/network/connections"])%list
  /\ sent (accessPoints w).2 = (sent w ++ [getRequest "/network/wifi"])%list
  /\ sent (settings w).2 = (sent w ++ [getRequest "/network/settings"])%list
  /\ sent (getConnection id w).2
     = (sent w ++ [getRequest "/network/connections"])%list
  /\ sent (addresses w).2
     = (sent w ++ [getRequest "/network/connections"])%list.
Proof.
  split; [|split; [exact (connections_sent w)|split; [|split; [|split]]]].
  - unfold devices. apply read_sent. intros r w'.
    destruct (ok r); cbn; [|done].
    rewrite lift_bind. destruct (json r); [|done].
    rewrite lift_bind. by destruct (asArray _).
  - unfold accessPoints. apply read_sent. intros r w'.
    destruct (ok r); cbn; [|done].
    rewrite lift_bind. destruct (json r); [|done].
    rewrite lift_bind. by destruct (asArray _).
  - unfold settings. apply read_sent. intros r w'. by destruct (ok r).
  - unfold getConnection. rewrite bind_run.
    pose proof (connections_sent w) as Hs.
    destruct (connections w) as [[conns|e] w']; [|exact Hs].
    rewrite lift_bind. by destruct (asArray conns).
  - unfold addresses. rewrite bind_run.
    pose proof (connections_sent w) as Hs.
    destruct (connections w) as [[conns|e] w']; [|exact Hs].
    rewrite lift_bind. by destruct (asArray conns).
Qed.

(** [updateConnection] and [deleteConnection] never write to the console,
    whatever the backend answers: a refused write leaves no trace there. *)
Theorem update_and_delete_never_log (connection id : value) (w : World) :
  console (updateConnection connection w).2 = console w
  /\ console (deleteConnection id w).2 = console w.
Proof.
  assert (Hwa : forall q w,
            console ((_ ← send q; response ← apply; mret (ok response)) w).2
            = console w).
  { intros q w0. rewrite bind_run, send_run.
    destruct (respond (sent w0) q); [|done].
    rewrite bind_run, apply_run. by destruct (respond _ applyRequest). }
  split; [|apply Hwa].
  unfold updateConnection. rewrite lift_bind.
  destruct (toApiConnection connection); [apply Hwa|done].
Qed.

(** A connection that [toApiConnection] cannot translate is never sent:
    [updateConnection], [addConnection] and [connectTo] throw what the
    translation threw and leave the world as it was. *)
Theorem untranslatable_connection_not_sent
    (connection : value) (e : exn) (w : World) :
  toApiConnection connection = Throw e ->
  updateConnection connection w = (Throw e, w)
  /\ addConnection connection w = (Throw e, w)
  /\ connectTo connection w = (Throw e, w).
Proof.
  intros He.
  assert (Hadd : addConnection connection w = (Throw e, w))
    by (unfold addConnection; by rewrite lift_bind, He).
  split; [unfold updateConnection; by rewrite lift_bind, He|].
  split; [exact Hadd|]. unfold connectTo. by rewrite bind_run, Hadd.
Qed.

(** The two outcomes of a POST that was answered.  Refused: [addConnection]
    logs and resolves to [null], and [connectTo] still sends the apply
    request before it resolves to [null].  Accepted: [addConnection]
    resolves to what the backend sent back, not to what it was given. *)
Theorem addConnection_outcomes
    (connection data : value) (r : Response) (w : World) :
  toApiConnection connection = Ok data ->
  respond (sent w) (addRequest data) = Ok r ->
  (ok r = false ->
     addConnection connection w
     = (Ok VNull,
        {| sent := sent w ++ [addRequest data];
           console := console w
             ++ [ConsoleError "Failed to post list of connections" r] |})
     /\ forall r2, respond (sent w ++ [addRequest data]) applyRequest = Ok r2 ->
          connectTo connection w
          = (Ok VNull,
             {| sent := sent w ++ [addRequest data; applyRequest];
                console := console w
                  ++ [ConsoleError "Failed to post list of connections" r] |}))
  /\ (ok r = true ->
        addConnection connection w
        = (json r, {| sent := sent w ++ [addRequest data];
                      console := console w |})).
Proof.
  intros Hd Hr.
  assert (Hadd : addConnection connection w
                 = (if negb (ok r)
                    then _ ← consoleError "Failed to post list of connections" r;
                         mret VNull
                    else lift (json r))
                     {| sent := sent w ++ [addRequest data];
                        console := console w |}).
  { unfold addConnection. rewrite lift_bind, Hd, bind_run.
    unfold client_post. rewrite send_run. fold (addRequest data).
    by rewrite Hr. }
  split; intros Hok; rewrite Hok in Hadd; cbn in Hadd; [|exact Hadd].
  change (addConnection connection w
          = (Ok VNull,
             {| sent := sent w ++ [addRequest data];
                console := console w
                  ++ [ConsoleError "Failed to post list of connections" r] |}))
    in Hadd.
  split; [exact Hadd|]. intros r2 Hr2.
  unfold connectTo. rewrite bind_run, Hadd. cbn beta iota.
  rewrite bind_run, apply_run. cbn [sent console]. rewrite Hr2.
  cbn. by rewrite <- app_assoc.
Qed.

End Traffic.


(** ** What the reads return *)

Section ReadResults.
Context {utils : Utils} {model : Model} {nm : NetworkManager}
        {client : HTTPClient}.

Lemma read_run {A} (path : string) (k : Response -> Async A) (w : World)
    (r : Response) :
  respond (sent w) (getRequest path) = Ok r ->
  (client_get path ≫= k) w = k r (afterGet path w).
Proof.
  intros Hr. rewrite bind_run. unfold client_get. rewrite send_run.
  fold (getRequest path). by rewrite Hr.
Qed.

Lemma mapM_throws {A B} (f : A -> result B) (l : list A) (x : A) (e : exn) :
  In x l -> f x = Throw e -> exists e', mapM f l = Throw e'.
Proof.
  intros Hin Hx. induction l as [|y l IH]; [done|]. cbn.
  destruct (f y) as [b|e1] eqn:Hy; cbn; [|by eexists].
  destruct Hin as [->|Hin]; [congruence|].
  destruct (IH Hin) as [e' ->]. by eexists.
Qed.

(** Only a response that is not ok is softened.  When the response is ok
    and its body cannot be decoded, every read throws what [json()] threw;
    when the body is not a list, the three list reads throw a TypeError and
    [settings] resolves to the body as it is. *)
Theorem reads_only_soften_refusals (w : World) (r : Response) :
  ok r = true ->
  (forall e, json r = Throw e ->
     (respond (sent w) (getRequest "/network/devices") = Ok r ->
        devices w = (Throw e, afterGet "/network/devices" w))
     /\ (respond (sent w) (getRequest "/network/connections") = Ok r ->
           connections w = (Throw e, afterGet "/network/connections" w))
     /\ (respond (sent w) (getRequest "/network/wifi") = Ok r ->
           accessPoints w = (Throw e, afterGet "/network/wifi" w))
     /\ (respond (sent w) (getRequest "/network/settings") = Ok r ->
           settings w = (Throw e, afterGet "/network/settings" w)))
  /\ (forall body, json r = Ok body -> isArray body = false ->
        (respond (sent w) (getRequest "/network/devices") = Ok r ->
           devices w = (Throw TypeError, afterGet "/network/devices" w))
        /\ (respond (sent w) (getRequest "/network/connections") = Ok r ->
              connections w
              = (Throw TypeError, afterGet "/network/connections" w))
        /\ (respond (sent w) (getRequest "/network/wifi") = Ok r ->
              accessPoints w = (Throw TypeError, afterGet "/network/wifi" w))
        /\ (respond (sent w) (getRequest "/network/settings") = Ok r ->
              settings w = (Ok body, afterGet "/network/settings" w))).
Proof.
  intros Hok. split.
  - intros e He. repeat split; intros Hr;
      unfold devices, connections, accessPoints, settings;
      rewrite (read_run _ _ _ _ Hr), Hok; cbn [negb];
      by rewrite ?lift_bind, ?He; unfold lift; rewrite ?He.
  - intros body Hb Ha. repeat split; intros Hr;
      unfold devices, connections, accessPoints, settings;
      rewrite (read_run _ _ _ _ Hr), Hok; cbn [negb];
      try (by unfold lift; rewrite Hb);
      rewrite lift_bind, Hb, lift_bind; by destruct body.
Qed.

(** One record that cannot be translated fails the whole read: with [null]
    among the records of an ok response, [devices], [connections] and
    [accessPoints] throw instead of returning the others. *)
Theorem reads_all_or_nothing (w : World) (r : Response) (l : list value) :
  ok r = true ->
  json r = Ok (VArr l) ->
  In VNull l ->
  (respond (sent w) (getRequest "/network/devices") = Ok r ->
     exists e, devices w = (Throw e, afterGet "/network/devices" w))
  /\ (respond (sent w) (getRequest "/network/connections") = Ok r ->
        exists e, connections w
                  = (Throw e, afterGet "/network/connections" w))
  /\ (respond (sent w) (getRequest "/network/wifi") = Ok r ->
        exists e, accessPoints w = (Throw e, afterGet "/network/wifi" w)).
Proof.
  intros Hok Hb Hin. repeat split; intros Hr;
    unfold devices, connections, accessPoints;
    rewrite (read_run _ _ _ _ Hr), Hok; cbn [negb];
    rewrite lift_bind, Hb, lift_bind; cbn [asArray].
  - destruct (mapM_throws fromApiDevice l VNull TypeError Hin eq_refl) as [e He].
    exists e. unfold lift. by rewrite He.
  - destruct (mapM_throws fromApiConnection l VNull TypeError Hin eq_refl)
      as [e He].
    exists e. unfold lift. by rewrite He.
  - destruct (mapM_throws accessPointFromApi l VNull TypeError Hin eq_refl)
      as [e He].
    exists e. unfold lift. by rewrite He.
Qed.

End ReadResults.

(** ** Looking connections up *)

Section Lookup.
Context {utils : Utils} {client : HTTPClient}.

(** What [fromApiConnection] returns is an object with a list of
    addresses. *)
Lemma fromApiConnection_result (x y : value) :
  fromApiConnection x = Ok y ->
  exists (m' : gmap string value) (la : list value),
    y = VObj m' /\ m' !! "addresses" = Some (VArr la).
Proof.
  unfold fromApiConnection.
  destruct (getProp x "nameservers") as [ns|e]; cbn [mbind result_bind]; [|done].
  destruct (getProp x "addresses") as [a|e]; cbn [mbind result_bind]; [|done].
  destruct (asArray _) as [la|e]; cbn [mbind result_bind]; [|done].
  destruct (mapM addressFromApi la) as [la'|e]; cbn [mbind result_bind]; [|done].
  intros [= <-]. eexists _, la'. split; [reflexivity|].
  by rewrite lookup_insert_ne, lookup_insert_eq by done.
Qed.

Lemma translated_connections (wires conns : list value) :
  mapM fromApiConnection wires = Ok conns ->
  Forall (fun y => exists (m' : gmap string value) (la : list value),
                     y = VObj m' /\ m' !! "addresses" = Some (VArr la)) conns.
Proof.
  intros Hm%mapM_Forall2. induction Hm as [|x y wires conns Hxy _ IH];
    constructor; [by eapply fromApiConnection_result|exact IH].
Qed.

Lemma connections_run (w : World) (r : Response) (wires : list value) :
  respond (sent w) (getRequest "/network/connections") = Ok r ->
  ok r = true ->
  json r = Ok (VArr wires) ->
  connections w
  = (VArr <$> mapM fromApiConnection wires,
     afterGet "/network/connections" w).
Proof.
  intros Hr Hok Hb. unfold connections.
  rewrite (read_run _ _ _ _ Hr), Hok. cbn [negb].
  by rewrite lift_bind, Hb, lift_bind.
Qed.

(** [find] passes over the objects that do not have the id. *)
Lemma findById_skips (id : value) (before rest : list value) :
  Forall (fun x => isObject x = true /\ hasId id x = false) before ->
  findById id (before ++ rest) = findById id rest.
Proof.
  induction 1 as [|x before [Hobj Hid] _ IH]; [done|].
  destruct x; try done. cbn in *. unfold hasId in Hid. cbn in Hid.
  by rewrite Hid.
Qed.

(** [getConnection] resolves to the first translated connection whose id is
    strictly equal to the one asked for, and to [undefined] when there is
    none; the connections after the first match are not looked at. *)
Theorem getConnection_first_match
    (id : value) (w : World) (r : Response) (wires conns : list value) :
  respond (sent w) (getRequest "/network/connections") = Ok r ->
  ok r = true ->
  json r = Ok (VArr wires) ->
  mapM fromApiConnection wires = Ok conns ->
  (forall before c after,
     conns = (before ++ c :: after)%list ->
     Forall (fun x => hasId id x = false) before ->
     hasId id c = true ->
     getConnection id w = (Ok c, afterGet "/network/connections" w))
  /\ (Forall (fun x => hasId id x = false) conns ->
        getConnection id w
        = (Ok VUndefined, afterGet "/network/connections" w)).
Proof.
  intros Hr Hok Hb Hm.
  assert (Hrun : getConnection id w
                 = (findById id conns, afterGet "/network/connections" w)).
  { unfold getConnection.
    by rewrite bind_run, (connections_run _ _ _ Hr Hok Hb), Hm. }
  pose proof (translated_connections _ _ Hm) as Hobj.
  assert (Hskip : forall l,
            Forall (fun y => exists (m' : gmap string value) (la : list value),
                        y = VObj m' /\ m' !! "addresses" = Some (VArr la)) l ->
            Forall (fun x => hasId id x = false) l ->
            Forall (fun x => isObject x = true /\ hasId id x = false) l).
  { intros l Ho Hi. induction Ho as [|x l (m' & la & -> & _) _ IH];
      [constructor|].
    apply Forall_cons in Hi as [Hx Hi]. constructor; [done|by apply IH]. }
  rewrite Hrun. split.
  - intros before c after -> Hbefore Hc.
    apply Forall_app in Hobj as [Hob Hoc].
    apply Forall_cons in Hoc as [(m' & la & -> & _) _].
    rewrite (findById_skips _ _ _ (Hskip _ Hob Hbefore)).
    cbn. unfold hasId in Hc. cbn in Hc. by rewrite Hc.
  - intros Hnone.
    rewrite <- (app_nil_r conns), (findById_skips _ _ _ (Hskip _ Hobj Hnone)).
    done.
Qed.

Lemma flatAddresses_translated (conns : list value) :
  Forall (fun y => exists (m' : gmap string value) (la : list value),
                     y = VObj m' /\ m' !! "addresses" = Some (VArr la)) conns ->
  flatAddresses conns = Ok (concat (addressesOf <$> conns)).
Proof.
  induction 1 as [|x conns (m' & la & -> & Ha) _ IH]; [done|].
  cbn. rewrite Ha, IH. cbn. unfold addressesOf. cbn. by rewrite Ha.
Qed.

(** [addresses] resolves to the addresses of all translated connections,
    connection after connection and in the order each lists them; an
    address that two connections share is there twice. *)
Theorem addresses_concatenates
    (w : World) (r : Response) (wires conns : list value) :
  respond (sent w) (getRequest "/network/connections") = Ok r ->
  ok r = true ->
  json r = Ok (VArr wires) ->
  mapM fromApiConnection wires = Ok conns ->
  addresses w
  = (Ok (VArr (concat (addressesOf <$> conns))),
     afterGet "/network/connections" w)
  /\ length (concat (addressesOf <$> conns))
     = sum_list (length ∘ addressesOf <$> wires).
Proof.
  intros Hr Hok Hb Hm. split.
  - unfold addresses.
    rewrite bind_run, (connections_run _ _ _ Hr Hok Hb), Hm.
    cbn [fmap result_fmap]. rewrite lift_bind. cbn [asArray]. unfold lift.
    by rewrite (flatAddresses_translated _ (translated_connections _ _ Hm)).
  - clear Hr Hb. apply mapM_Forall2 in Hm.
    induction Hm as [|x y wires conns Hxy _ IH]; [done|].
    cbn. rewrite length_app, IH. f_equal.
    revert Hxy. unfold fromApiConnection, addressesOf.
    destruct (getProp x "nameservers") as [ns|e] eqn:Hns;
      cbn [mbind result_bind]; [|done].
    destruct (getProp x "addresses") as [a|e] eqn:Ha;
      cbn [mbind result_bind]; [|done].
    destruct (asArray _) as [la|e] eqn:Hla; cbn [mbind result_bind]; [|done].
    apply asArray_orElse in Hla.
    destruct (mapM addressFromApi la) as [la'|e] eqn:Hl;
      cbn [mbind result_bind]; [|done].
    apply mapM_Forall2, Forall2_length in Hl.
    intros [= <-]. cbn. rewrite lookup_insert_ne, lookup_insert_eq by done.
    cbn. rewrite <- Hl, <- Hla.
    destruct x; cbn in Ha; try done; by injection Ha as <-.
Qed.

(** When the backend refuses the read, [getConnection] resolves to
    [undefined] and [addresses] to the empty list, each after the one line
    that [connections] logs. *)
Theorem lookups_soft_fail (id : value) (w : World) (r : Response) :
  respond (sent w) (getRequest "/network/connections") = Ok r ->
  ok r = false ->
  let w' := {| sent := sent w ++ [getRequest "/network/connections"];
               console := console w
                 ++ [ConsoleError "Failed to get list of connections" r] |} in
  getConnection id w = (Ok VUndefined, w')
  /\ addresses w = (Ok (VArr []), w').
Proof.
  intros Hr Hok.
  assert (Hc : connections w
               = (Ok (VArr []),
                  {| sent := sent w ++ [getRequest "/network/connections"];
                     console := console w
                       ++ [ConsoleError "Failed to get list of connections" r] |})).
  { unfold connections. by rewrite (read_run _ _ _ _ Hr), Hok. }
  cbv zeta. unfold getConnection, addresses. by rewrite !bind_run, Hc.
Qed.

End Lookup.

(** ** Wireless networks *)

Section Wireless.
Context {utils : Utils} {model : Model} {nm : NetworkManager}
        {client : HTTPClient}.

(** Of a wire access point only four things reach the factory: the ssid,
    the hardware address under its new name, the strength, and what the
    decoder makes of the three flag words; every other wire property is
    left behind.  When the decoder throws, the factory is not called. *)
Theorem accessPointFromApi_fields (m : gmap string value) :
  let field k := default VUndefined (m !! k) in
  let decoded :=
    securityFromFlags (field "flags") (field "wpa_flags") (field "rsn_flags") in
  (forall security, decoded = Ok security ->
     exists ap : gmap string value,
       accessPointFromApi (VObj m) = createAccessPoint (VObj ap)
       /\ ap !! "ssid" = Some (field "ssid")
       /\ ap !! "hwAddress" = Some (field "hw_address")
       /\ ap !! "strength" = Some (field "strength")
       /\ ap !! "security" = Some security
       /\ forall k, k <> "ssid" -> k <> "hwAddress" -> k <> "strength" ->
                    k <> "security" -> ap !! k = None)
  /\ (forall e, decoded = Throw e -> accessPointFromApi (VObj m) = Throw e).
Proof.
  cbv zeta. unfold accessPointFromApi. cbn [getProp mbind result_bind].
  split.
  - intros security ->. cbn [mbind result_bind].
    eexists. split; [reflexivity|]. cbn [foldl fst snd].
    split; [by rewrite !lookup_insert_ne, lookup_insert_eq by done|].
    split; [by rewrite !lookup_insert_ne, lookup_insert_eq by done|].
    split; [by rewrite !lookup_insert_ne, lookup_insert_eq by done|].
    split; [by rewrite lookup_insert_eq|].
    intros k H1 H2 H3 H4. by rewrite !lookup_insert_ne, lookup_empty by done.
  - by intros e ->.
Qed.

Lemma copyOption_lookup (k : string) (o wireless : gmap string value) :
  exists wireless' : gmap string value,
    copyOption k (VObj o) wireless = Ok wireless'
    /\ wireless' !! k
       = (if truthy (default VUndefined (o !! k))
          then Some (default VUndefined (o !! k)) else wireless !! k)
    /\ forall j, j <> k -> wireless' !! j = wireless !! j.
Proof.
  unfold copyOption. cbn [getProp mbind result_bind].
  destruct (truthy _); eexists; (split; [reflexivity|]).
  - split; [by rewrite lookup_insert_eq|].
    intros j Hj. by rewrite lookup_insert_ne.
  - done.
Qed.

(** The connection [addAndConnectTo] asks the factory for: its id is the
    ssid, and its wireless settings hold the ssid, the mode ("infrastructure"
    unless the options give one), and the security, password and hidden
    options that are truthy, and nothing else.  Without options there is a
    TypeError before anything is sent. *)
Theorem wirelessConnection_settings (ssid : value) (o : gmap string value) :
  let option k := default VUndefined (o !! k) in
  (exists wireless : gmap string value,
     wirelessConnection ssid (VObj o)
     = createConnection (object [("id", ssid); ("wireless", VObj wireless)])
     /\ wireless !! "ssid" = Some ssid
     /\ wireless !! "mode"
        = Some (orElse (option "mode") (VStr "infrastructure"))
     /\ (forall k, k = "security" \/ k = "password" \/ k = "hidden" ->
           wireless !! k
           = if truthy (option k) then Some (option k) else None)
     /\ (forall k, k <> "ssid" -> k <> "mode" -> k <> "security" ->
                   k <> "password" -> k <> "hidden" -> wireless !! k = None))
  /\ (forall w, addAndConnectTo ssid VUndefined w = (Throw TypeError, w))
  /\ (forall w, addAndConnectTo ssid VNull w = (Throw TypeError, w)).
Proof.
  cbv zeta.
  split; [|split; intros w; reflexivity].
  unfold wirelessConnection.
  set (w0 := <["mode" := VStr "infrastructure"]> (<["ssid" := ssid]> ∅)
             : gmap string value).
  destruct (copyOption_lookup "security" o w0) as (w1 & -> & Hs1 & Ho1).
  cbn [mbind result_bind].
  destruct (copyOption_lookup "password" o w1) as (w2 & -> & Hs2 & Ho2).
  cbn [mbind result_bind].
  destruct (copyOption_lookup "hidden" o w2) as (w3 & -> & Hs3 & Ho3).
  cbn [mbind result_bind].
  destruct (copyOption_lookup "mode" o w3) as (w4 & -> & Hs4 & Ho4).
  cbn [mbind result_bind].
  assert (H0 : forall k, k <> "ssid" -> k <> "mode" -> w0 !! k = None)
    by (intros k ? ?; subst w0; by rewrite !lookup_insert_ne, lookup_empty by done).
  exists w4. split; [reflexivity|]. split; [|split; [|split]].
  - rewrite Ho4, Ho3, Ho2, Ho1 by done. subst w0.
    by rewrite lookup_insert_ne, lookup_insert_eq by done.
  - rewrite Hs4, Ho3, Ho2, Ho1 by done. subst w0. rewrite lookup_insert_eq.
    unfold orElse. by destruct (truthy (default VUndefined (o !! "mode"))).
  - intros k [-> | [-> | ->]].
    + rewrite Ho4, Ho3, Ho2, Hs1, H0 by done. done.
    + rewrite Ho4, Ho3, Hs2, Ho1, H0 by done. done.
    + rewrite Ho4, Hs3, Ho2, Ho1, H0 by done. done.
  - intros k ? ? ? ? ?. by rewrite Ho4, Ho3, Ho2, Ho1, H0 by done.
Qed.

End Wireless.

(** ** The address of an update *)

Section UpdateAddress.
Context {utils : Utils} {client : HTTPClient}.

Lemma toApiConnection_id (m : gmap string value) (conn : value) :
  toApiConnection (VObj m) = Ok conn ->
  getPropOpt conn "id" = default VUndefined (m !! "id").
Proof.
  unfold toApiConnection.
  cbn [getProp getPropOpt mbind result_bind ownProps].
  destruct (asArray _) as [la|e]; cbn [mbind result_bind]; [|done].
  destruct (mapM formatIp la) as [la'|e]; cbn [mbind result_bind]; [|done].
  destruct (setGateway "gateway4" _ _) as [c4|e] eqn:H4; cbn [mbind result_bind];
    [|done].
  destruct (setGateway "gateway6" _ _) as [c6|e] eqn:H6; cbn [mbind result_bind];
    [|done].
  apply setGateway_lookup in H4 as [H4 _];
    [|by rewrite lookup_delete_ne, lookup_delete_eq by done].
  apply setGateway_lookup in H6 as [H6 _];
    [|by rewrite H4, lookup_delete_eq by done].
  intros [= <-]. cbn.
  rewrite !lookup_insert_ne, H6, H4 by done. by rewrite !lookup_delete_ne by done.
Qed.

(** The first thing [updateConnection] sends is a PUT of the translated
    connection to the path that ends in the connection's id, taken as it is;
    for a connection without an id the path ends in "undefined". *)
Theorem updateConnection_address
    (m : gmap string value) (conn : value) (w : World) :
  toApiConnection (VObj m) = Ok conn ->
  (exists rest,
     sent (updateConnection (VObj m) w).2
     = (sent w ++ updateRequest conn :: rest)%list)
  /\ method (updateRequest conn) = PUT
  /\ payload (updateRequest conn) = Some conn
  /\ (forall id, m !! "id" = Some (VStr id) ->
        url (updateRequest conn) = "/network/connections/" ++ id)
  /\ (m !! "id" = None ->
      url (updateRequest conn) = "/network/connections/undefined").
Proof.
  intros Hc.
  assert (Hurl : url (updateRequest conn)
                 = "/network/connections/"
                   ++ toString (default VUndefined (m !! "id")))
    by (cbn [url updateRequest]; by rewrite (toApiConnection_id _ _ Hc)).
  split; [|split; [done|split; [done|split; [by intros id Hid; rewrite Hurl, Hid|]]]].
  - unfold updateConnection. rewrite lift_bind, Hc, bind_run.
    unfold client_put. rewrite send_run. fold (updateRequest conn).
    destruct (respond (sent w) _) as [r1|e]; [|by exists []].
    rewrite bind_run, apply_run. cbn [sent console].
    exists [applyRequest].
    destruct (respond _ applyRequest); cbn; by rewrite <- app_assoc.
  - intros Hid. by rewrite Hurl, Hid.
Qed.

End UpdateAddress.


(** ** The properties above on the sample inputs *)

Lemma addressFromApi_parts_witness :
  Str.contains "/" "10.0.0.1" = false
  /\ Str.contains "/" "8" = false
  /\ addressFromApi (utils := parseIntUtils) (VStr "10.0.0.1/8/x")
     = addressFromApi (utils := parseIntUtils) (VStr "10.0.0.1/8").
Proof.
  split; [reflexivity|]. split; [reflexivity|].
  exact (proj1 (proj2 (proj2 (addressFromApi_parts (utils := parseIntUtils)
                                "10.0.0.1" "8" "x" eq_refl eq_refl)))).
Defined.

Lemma fromApiConnection_keeps_fields_witness :
  fromApiConnection (utils := specUtils) eth0Wire = Ok eth0Domain
  /\ exists (m' : gmap string value) (la' : list value),
       eth0Domain = VObj m'
       /\ m' !! "addresses" = Some (VArr la')
       /\ Forall2 (fun x y => addressFromApi (utils := specUtils) x = Ok y)
            (addressesOf eth0Wire) la'
       /\ m' !! "nameservers"
          = Some (orElse (default VUndefined (ownProps eth0Wire !! "nameservers"))
                    (VArr []))
       /\ forall k, k <> "addresses" -> k <> "nameservers" ->
                    m' !! k = ownProps eth0Wire !! k.
Proof.
  assert (H : fromApiConnection (utils := specUtils) eth0Wire = Ok eth0Domain)
    by (vm_compute; reflexivity).
  split; [exact H|].
  exact (fromApiConnection_keeps_fields (utils := specUtils)
           (ownProps eth0Wire) eth0Domain H).
Defined.

Lemma fromApiConnection_defaults_witness :
  hostRoute !! "addresses" = None
  /\ hostRoute !! "nameservers" = None
  /\ fromApiConnection (utils := specUtils) (VObj hostRoute)
     = Ok (VObj (<["nameservers" := VArr []]> (<["addresses" := VArr []]> hostRoute))).
Proof.
  split; [reflexivity|]. split; [reflexivity|].
  exact (fromApiConnection_defaults (utils := specUtils) hostRoute
           eq_refl eq_refl).
Defined.

Lemma route6_as_route4_with_slash_witness :
  ownProps route4Wire !! "destination" = Some (VStr "192.168.1.0/24")
  /\ Str.contains "/" "192.168.1.0/24" = true
  /\ route6FromApi (utils := specUtils) route4Wire
     = route4FromApi (utils := specUtils) route4Wire.
Proof.
  split; [vm_compute; reflexivity|]. split; [reflexivity|].
  refine (route6_as_route4_with_slash (utils := specUtils)
            (ownProps route4Wire) "192.168.1.0/24" _ eq_refl).
  vm_compute. reflexivity.
Defined.

Lemma fromApiDevice_flattens_ipConfig_witness :
  exists d,
    fromApiDevice (utils := specUtils) (VObj shadowedDevice) = Ok d
    /\ getPropOpt d "mtu" = VNum 9000
    /\ getPropOpt d "name" = VStr "eth0"
    /\ getPropOpt d "ipConfig" = VUndefined.
Proof.
  destruct (fromApiDevice (utils := specUtils) (VObj shadowedDevice))
    as [d|e] eqn:Hd; [|vm_compute in Hd; discriminate Hd].
  exists d. split; [reflexivity|].
  destruct (fromApiDevice_flattens_ipConfig (utils := specUtils)
              shadowedDevice
              (<["mtu" := VNum 9000]> (<["method4" := VStr "auto"]> ∅)) d
              eq_refl Hd)
    as (m' & l4 & l6 & la & -> & _ & _ & _ & _ & Hk).
  cbn [getPropOpt].
  rewrite (Hk "mtu"), (Hk "name"), (Hk "ipConfig") by done.
  repeat split; vm_compute; reflexivity.
Defined.

Lemma fromApiDevice_without_ipConfig_witness :
  hostRoute !! "ipConfig" = None
  /\ fromApiDevice (utils := specUtils) (VObj hostRoute)
     = Ok (VObj (<["routes6" := VArr []]> (<["routes4" := VArr []]>
                (<["nameservers" := VArr []]> (<["addresses" := VArr []]>
                 hostRoute))))).
Proof.
  split; [reflexivity|].
  exact (fromApiDevice_without_ipConfig (utils := specUtils) hostRoute eq_refl).
Defined.

Lemma toApiConnection_renames_iface_witness :
  toApiConnection (utils := specUtils) eth0Domain = Ok eth0Api
  /\ exists (m' : gmap string value) (la' : list value),
       eth0Api = VObj m'
       /\ m' !! "iface" = None
       /\ m' !! "interface"
          = Some (default VUndefined (ownProps eth0Domain !! "iface"))
       /\ m' !! "addresses" = Some (VArr la')
       /\ Forall2 (fun x y => formatIp (Utils := specUtils) x = Ok y)
            (addressesOf eth0Domain) la'
       /\ forall k, k <> "iface" -> k <> "interface" -> k <> "addresses" ->
                    k <> "gateway4" -> k <> "gateway6" ->
                    m' !! k = ownProps eth0Domain !! k.
Proof.
  assert (H : toApiConnection (utils := specUtils) eth0Domain = Ok eth0Api)
    by (vm_compute; reflexivity).
  split; [exact H|].
  exact (toApiConnection_renames_iface (utils := specUtils)
           (ownProps eth0Domain) eth0Api H).
Defined.

Lemma toApiConnection_gateways_witness :
  exists m' : gmap string value,
    toApiConnection (utils := specUtils) (VObj blankGateway) = Ok (VObj m')
    /\ m' !! "gateway4" = None
    /\ m' !! "gateway6" = Some VUndefined.
Proof.
  destruct (toApiConnection (utils := specUtils) (VObj blankGateway))
    as [[| | | | | | |m']|e] eqn:Hc; try (vm_compute in Hc; discriminate Hc).
  exists m'. split; [reflexivity|]. split.
  - exact (toApiConnection_gateways (utils := specUtils) blankGateway m'
             "gateway4" (or_introl eq_refl) Hc eq_refl).
  - exact (toApiConnection_gateways (utils := specUtils) blankGateway m'
             "gateway6" (or_intror eq_refl) Hc).
Defined.

Lemma untranslatable_connection_not_sent_witness :
  toApiConnection (utils := specUtils) numericGateway = Throw TypeError
  /\ updateConnection (utils := specUtils) (client := acceptingClient)
       numericGateway emptyWorld = (Throw TypeError, emptyWorld).
Proof.
  assert (H : toApiConnection (utils := specUtils) numericGateway
              = Throw TypeError) by (vm_compute; reflexivity).
  split; [exact H|].
  exact (proj1 (untranslatable_connection_not_sent (utils := specUtils)
                  (client := acceptingClient) numericGateway TypeError
                  emptyWorld H)).
Defined.

Lemma addConnection_outcomes_witness :
  toApiConnection (utils := specUtils) eth0Domain = Ok eth0Api
  /\ ok failedResponse = false
  /\ connectTo (utils := specUtils) (client := refusingPostClient)
       eth0Domain emptyWorld
     = (Ok VNull,
        {| sent := [addRequest eth0Api; applyRequest];
           console := [ConsoleError "Failed to post list of connections"
                         failedResponse] |}).
Proof.
  assert (H : toApiConnection (utils := specUtils) eth0Domain = Ok eth0Api)
    by (vm_compute; reflexivity).
  split; [exact H|]. split; [reflexivity|].
  exact (proj2 (proj1 (addConnection_outcomes (utils := specUtils)
                         (client := refusingPostClient) eth0Domain eth0Api
                         failedResponse emptyWorld H eq_refl) eq_refl)
           (okResponse VNull) eq_refl).
Defined.

Lemma reads_only_soften_refusals_witness :
  ok (okResponse (VObj ∅)) = true
  /\ connections (utils := specUtils) (client := objectBodyClient) emptyWorld
     = (Throw TypeError, afterGet "/network/connections" emptyWorld)
  /\ settings (client := objectBodyClient) emptyWorld
     = (Ok (VObj ∅), afterGet "/network/settings" emptyWorld).
Proof.
  destruct (proj2 (reads_only_soften_refusals (utils := specUtils)
                     (model := plainModel) (nm := plainNetworkManager)
                     (client := objectBodyClient) emptyWorld
                     (okResponse (VObj ∅)) eq_refl) (VObj ∅) eq_refl eq_refl)
    as (_ & Hc & _ & Hs).
  split; [reflexivity|]. split; [exact (Hc eq_refl)|exact (Hs eq_refl)].
Defined.

Lemma reads_all_or_nothing_witness :
  In VNull [eth0Wire; VNull]
  /\ exists e,
       connections (utils := specUtils) (client := nullRecordClient) emptyWorld
       = (Throw e, afterGet "/network/connections" emptyWorld).
Proof.
  assert (Hin : In VNull [eth0Wire; VNull]) by (right; by left).
  split; [exact Hin|].
  exact (proj1 (proj2 (reads_all_or_nothing (utils := specUtils)
                         (model := plainModel) (nm := plainNetworkManager)
                         (client := nullRecordClient) emptyWorld
                         (okResponse (VArr [eth0Wire; VNull]))
                         [eth0Wire; VNull] eq_refl eq_refl Hin)) eq_refl).
Defined.

Lemma getConnection_first_match_witness :
  mapM (fromApiConnection (utils := specUtils)) [eth0Wire; wlan0Wire]
  = Ok [eth0Domain; wlan0Domain]
  /\ hasId (VStr "wlan0") eth0Domain = false
  /\ hasId (VStr "wlan0") wlan0Domain = true
  /\ getConnection (utils := specUtils) (client := twoConnectionsClient)
       (VStr "wlan0") emptyWorld
     = (Ok wlan0Domain, afterGet "/network/connections" emptyWorld).
Proof.
  assert (Hm : mapM (fromApiConnection (utils := specUtils)) [eth0Wire; wlan0Wire]
               = Ok [eth0Domain; wlan0Domain]) by (vm_compute; reflexivity).
  assert (Hno : hasId (VStr "wlan0") eth0Domain = false)
    by (vm_compute; reflexivity).
  assert (Hyes : hasId (VStr "wlan0") wlan0Domain = true)
    by (vm_compute; reflexivity).
  split; [exact Hm|]. split; [exact Hno|]. split; [exact Hyes|].
  refine (proj1 (getConnection_first_match (utils := specUtils)
                   (client := twoConnectionsClient) (VStr "wlan0") emptyWorld
                   (okResponse (VArr [eth0Wire; wlan0Wire]))
                   [eth0Wire; wlan0Wire] [eth0Domain; wlan0Domain]
                   eq_refl eq_refl eq_refl Hm)
            [eth0Domain] wlan0Domain [] eq_refl _ Hyes).
  constructor; [exact Hno|constructor].
Defined.

Lemma addresses_concatenates_witness :
  mapM (fromApiConnection (utils := specUtils)) [eth0Wire; wlan0Wire]
  = Ok [eth0Domain; wlan0Domain]
  /\ addresses (utils := specUtils) (client := twoConnectionsClient) emptyWorld
     = (Ok (VArr (concat (addressesOf <$> [eth0Domain; wlan0Domain]))),
        afterGet "/network/connections" emptyWorld)
  /\ length (concat (addressesOf <$> [eth0Domain; wlan0Domain])) = 3%nat.
Proof.
  assert (Hm : mapM (fromApiConnection (utils := specUtils)) [eth0Wire; wlan0Wire]
               = Ok [eth0Domain; wlan0Domain]) by (vm_compute; reflexivity).
  split; [exact Hm|].
  destruct (addresses_concatenates (utils := specUtils)
              (client := twoConnectionsClient) emptyWorld
              (okResponse (VArr [eth0Wire; wlan0Wire]))
              [eth0Wire; wlan0Wire] [eth0Domain; wlan0Domain]
              eq_refl eq_refl eq_refl Hm) as [Ha Hl].
  split; [exact Ha|]. rewrite Hl. vm_compute. reflexivity.
Defined.

Lemma lookups_soft_fail_witness :
  ok failedResponse = false
  /\ getConnection (utils := specUtils) (client := failingClient)
       (VStr "eth0") emptyWorld
     = (Ok VUndefined,
        {| sent := [getRequest "/network/connections"];
           console := [ConsoleError "Failed to get list of connections"
                         failedResponse] |}).
Proof.
  split; [reflexivity|].
  exact (proj1 (lookups_soft_fail (utils := specUtils) (client := failingClient)
                  (VStr "eth0") emptyWorld failedResponse eq_refl eq_refl)).
Defined.

Lemma accessPointFromApi_fields_witness :
  exists ap : gmap string value,
    accessPointFromApi (model := plainModel) (nm := plainNetworkManager)
      (VObj homeAp) = Ok (VObj ap)
    /\ ap !! "hwAddress" = Some (VStr "AA:BB:CC:DD:EE:FF")
    /\ ap !! "security" = Some (VArr [VNum 1])
    /\ ap !! "hw_address" = None
    /\ ap !! "frequency" = None.
Proof.
  destruct (proj1 (accessPointFromApi_fields (model := plainModel)
                     (nm := plainNetworkManager) homeAp)
              (VArr [VNum 1]) eq_refl)
    as (ap & Heq & _ & Hhw & _ & Hsec & Hother).
  exists ap. split; [exact Heq|]. split; [exact Hhw|]. split; [exact Hsec|].
  split; apply Hother; done.
Defined.

Lemma wirelessConnection_settings_witness :
  exists wireless : gmap string value,
    wirelessConnection (model := plainModel) (VStr "Home") (VObj hiddenNetwork)
    = Ok (object [("id", VStr "Home"); ("wireless", VObj wireless)])
    /\ wireless !! "mode" = Some (VStr "infrastructure")
    /\ wireless !! "password" = Some (VStr "secret")
    /\ wireless !! "security" = None.
Proof.
  destruct (proj1 (wirelessConnection_settings (utils := specUtils)
                     (model := plainModel) (client := acceptingClient)
                     (VStr "Home") hiddenNetwork))
    as (wireless & Heq & _ & Hmode & Hopt & _).
  exists wireless. split; [exact Heq|]. split; [exact Hmode|].
  split.
  - exact (Hopt "password" (or_intror (or_introl eq_refl))).
  - exact (Hopt "security" (or_introl eq_refl)).
Defined.

Lemma updateConnection_address_witness :
  exists conn,
    toApiConnection (utils := specUtils) (VObj hostRoute) = Ok conn
    /\ url (updateRequest conn) = "/network/connections/undefined".
Proof.
  destruct (toApiConnection (utils := specUtils) (VObj hostRoute))
    as [conn|e] eqn:Hc; [|vm_compute in Hc; discriminate Hc].
  exists conn. split; [reflexivity|].
  exact (proj2 (proj2 (proj2 (proj2
           (updateConnection_address (utils := specUtils)
              (client := acceptingClient) hostRoute conn emptyWorld Hc))))
           eq_refl).
Defined.


(** ** An IPv4 route without a prefix *)

Section HostRoutes.


End HostRoutes.


